(** * pydantic-ai-sops: discovery, validation and activation of SOPs

    A shallow embedding of [src/pydantic_ai_sops/toolset.py] (with the
    dataclasses of [types.py] and the exception classes of [exceptions.py])
    and the properties of it that the specification states.

    Conventions of the embedding.
    - A Python [str] is a Rocq [string]; one [ascii] stands for one code
      point below 256.
    - A call that may raise returns a [Result]; an exception is its class
      and its message, and [except C] is [isinstance e C].
    - The file system, the YAML decoder and the module loader are not part
      of the package: they are the fields of the record [World], one field
      per library call the source makes, each giving the outcome of that
      call (a value or the exception it raises). Which exceptions
      [pathlib] raises depends on the version of CPython; the general
      statements hold for every world, and an example that needs a
      version says which.
    - Logging is not modelled: no logger call of the source changes a
      result. *)

From Stdlib Require Import String Ascii ZArith List Lia Bool.
From stdpp Require Import gmap strings list pretty sorting.

(** ** Python strings *)

Module Str.

Definition LF : ascii := "010"%char.
Definition nl : string := String LF "".

(** [str.isspace] on one code point below 256; the same set is what [\s]
    matches in a [str] pattern. *)
Definition isspace (c : ascii) : bool :=
  let n := nat_of_ascii c in
  ((9 <=? n) && (n <=? 13)) || ((28 <=? n) && (n <=? 32))
  || (n =? 133) || (n =? 160).

Fixpoint lstrip (s : string) : string :=
  match s with
  | String c s' => if isspace c then lstrip s' else s
  | EmptyString => EmptyString
  end.

Fixpoint rstrip (s : string) : string :=
  match s with
  | EmptyString => EmptyString
  | String c s' =>
      match rstrip s' with
      | EmptyString => if isspace c then EmptyString else String c EmptyString
      | r => String c r
      end
  end.

(** [s.strip()] *)
Definition strip (s : string) : string := rstrip (lstrip s).

(** [bool(s)] of a string *)
Definition nonempty (s : string) : bool :=
  match s with EmptyString => false | _ => true end.

(** [sub in s] *)
Fixpoint contains (sub s : string) : bool :=
  String.prefix sub s
  || match s with
     | String _ s' => contains sub s'
     | EmptyString => false
     end.

(** [s.split('\n')]: never empty, the last element is the unterminated
    last line. *)
Fixpoint lines (s : string) : list string :=
  match s with
  | EmptyString => [EmptyString]
  | String c s' =>
      if Ascii.eqb c LF then EmptyString :: lines s'
      else match lines s' with
           | l :: ls => String c l :: ls
           | [] => [String c EmptyString]
           end
  end.

(** [sep.join(parts)] *)
Fixpoint join (sep : string) (parts : list string) : string :=
  match parts with
  | [] => EmptyString
  | [p] => p
  | p :: ps => p +:+ sep +:+ join sep ps
  end.

(** ASCII letters only: on code points below 256 this decides
    [s.upper() == 'SOP.MD'] as Python does. *)
Definition upper_char (c : ascii) : ascii :=
  let n := nat_of_ascii c in
  if (97 <=? n) && (n <=? 122) then ascii_of_nat (n - 32) else c.

Fixpoint upper (s : string) : string :=
  match s with
  | EmptyString => EmptyString
  | String c s' => String (upper_char c) (upper s')
  end.

End Str.

(** ** Python values, exceptions and results *)

(** What [yaml.safe_load] builds (floats and dates left out). *)
#[local] Set Warnings "-register-all".
Inductive PyValue : Type :=
  | VNone
  | VBool (b : bool)
  | VInt (n : Z)
  | VStr (s : string)
  | VSeq (items : list PyValue)
  | VMap (items : list (string * PyValue)).
#[local] Set Warnings "register-all".

(** [bool(v)] *)
Definition truthy (v : PyValue) : bool :=
  match v with
  | VNone => false
  | VBool b => b
  | VInt n => negb (n =? 0)%Z
  | VStr s => Str.nonempty s
  | VSeq l => match l with [] => false | _ => true end
  | VMap m => match m with [] => false | _ => true end
  end.

Inductive ExcClass : Type :=
  | Exception
  | ValueError | UnicodeDecodeError
  | OSError | FileNotFoundError | PermissionError
  | RuntimeError | AttributeError | TypeError | KeyError | ImportError
  | YAMLError
  | SOPException | SOPNotFoundError | SOPValidationError
  | SOPResourceLoadError | SOPScriptExecutionError.

#[global] Instance ExcClass_eq_dec : EqDecision ExcClass.
Proof. solve_decision. Defined.

(** The direct base class. *)
Definition base (c : ExcClass) : option ExcClass :=
  match c with
  | Exception => None
  | UnicodeDecodeError => Some ValueError
  | FileNotFoundError | PermissionError => Some OSError
  | SOPNotFoundError | SOPValidationError | SOPResourceLoadError
  | SOPScriptExecutionError => Some SOPException
  | _ => Some Exception
  end.

(** [issubclass(c, d)]; the hierarchy above is three levels deep. *)
Definition issubclass (c d : ExcClass) : bool :=
  bool_decide (c = d)
  || match base c with
     | Some b =>
         bool_decide (b = d)
         || match base b with
            | Some b' => bool_decide (b' = d)
            | None => false
            end
     | None => false
     end.

Record Exc : Type := mkExc { exc_class : ExcClass; exc_msg : string }.

Definition isinstance (e : Exc) (c : ExcClass) : bool :=
  issubclass (exc_class e) c.

Inductive Result (A : Type) : Type :=
  | Return (a : A)
  | Raise (e : Exc).
Arguments Return {A} a.
Arguments Raise {A} e.

Definition bind {A B : Type} (r : Result A) (k : A -> Result B) : Result B :=
  match r with
  | Return a => k a
  | Raise e => Raise e
  end.

Declare Scope py_scope.
Delimit Scope py_scope with py.
Notation "x <- r ;; k" := (bind r (fun x => k))
  (at level 100, r at next level, right associativity) : py_scope.
Open Scope py_scope.

(** A generator consumed by a [for] loop: the items it yields and then
    either [StopIteration] or the exception it raises instead. *)
Record Iteration (A : Type) : Type :=
  mkIteration { yielded : list A; finish : option Exc }.
Arguments mkIteration {A} yielded finish.
Arguments yielded {A} i.
Arguments finish {A} i.

(** [for x in items: s = body(s, x)], stopping at the first exception. *)
Fixpoint for_list {A S : Type} (body : S -> A -> Result S)
    (items : list A) (s : S) : Result S :=
  match items with
  | [] => Return s
  | x :: rest => s' <- body s x ;; for_list body rest s'
  end.

Definition for_each {A S : Type} (body : S -> A -> Result S)
    (it : Iteration A) (s : S) : Result S :=
  s' <- for_list body (yielded it) s ;;
  match finish it with
  | None => Return s'
  | Some e => Raise e
  end.

(** ** Pure paths *)

(** A [pathlib] path, lexically: whether it is anchored at the root, and its
    components below the anchor. *)
Record Path : Type := mkPath { absolute : bool; parts : list string }.

#[global] Instance Path_eq_dec : EqDecision Path.
Proof. solve_decision. Defined.

Module PurePath.

(** [p / part], for a relative single component. *)
Definition joinpath (p : Path) (part : string) : Path :=
  mkPath (absolute p) (parts p ++ [part]).

(** [p.name]: the last component, empty for the root and for [.]. *)
Definition name (p : Path) : string := List.last (parts p) EmptyString.

(** [p.parent]: the root and [.] are their own parents. *)
Definition parent (p : Path) : Path :=
  mkPath (absolute p) (removelast (parts p)).

(** [str(p)] *)
Definition to_str (p : Path) : string :=
  if absolute p then "/" +:+ Str.join "/" (parts p)
  else match parts p with
       | [] => "."
       | ps => Str.join "/" ps
       end.

(** The components of [l] after the prefix [pre], if [pre] is one. *)
Fixpoint strip_prefix (pre l : list string) : option (list string) :=
  match pre, l with
  | [], _ => Some l
  | x :: pre', y :: l' =>
      if bool_decide (x = y) then strip_prefix pre' l' else None
  | _ :: _, [] => None
  end.

Definition not_in_subpath (p other : Path) : string :=
  "'" +:+ to_str p +:+ "' is not in the subpath of '" +:+ to_str other
  +:+ "' OR one path is relative and the other is absolute.".

(** [p.relative_to(other)]: [ValueError] unless [other] is [p] or one of
    its ancestors. *)
Definition relative_to (p other : Path) : Result Path :=
  if bool_decide (absolute p = absolute other) then
    match strip_prefix (parts other) (parts p) with
    | Some rest => Return (mkPath false rest)
    | None => Raise (mkExc ValueError (not_in_subpath p other))
    end
  else Raise (mkExc ValueError (not_in_subpath p other)).

End PurePath.

Notation "p // part" := (PurePath.joinpath p part)
  (at level 40, left associativity).

(** ** The world outside the package *)

(** The object a companion module binds to [sop_ts], which the source
    takes for a [FunctionToolset] without checking: [tools_keys] is what
    iterating [sop_ts.tools.keys()] gives, the names of the tools in order,
    or the exception raised there (an object without [tools]). *)
Record FunctionToolset : Type := mkToolset { tools_keys : Result (list string) }.

(** The three patterns the source globs with. *)
Inductive GlobPattern : Type :=
  | GlobMd        (** [glob('*.md')] *)
  | GlobSopMd     (** [glob('**/SOP.md')] *)
  | RGlobAll.     (** [rglob('*')] *)

(** One field per library call of the source; each gives the outcome of
    the call in the state the world is in. *)
Record World : Type := mkWorld {
  (** [Path.expanduser()], [Path.resolve()] *)
  expanduser : Path -> Result Path;
  resolve : Path -> Result Path;
  (** [Path.exists()], [Path.is_dir()], [Path.is_file()] *)
  exists_ : Path -> Result bool;
  is_dir : Path -> Result bool;
  is_file : Path -> Result bool;
  (** [Path.glob(pattern)], [Path.rglob('*')] *)
  glob : Path -> GlobPattern -> Iteration Path;
  (** [Path.read_text(encoding='utf-8')] *)
  read_text : Path -> Result string;
  (** [yaml.safe_load] *)
  safe_load : string -> Result PyValue;
  (** [_import_toolset]: [spec_from_file_location], [exec_module] and
      [getattr(module, 'sop_ts')] *)
  exec_module : Path -> Result FunctionToolset;
}.

(** ** Formatting and inspecting Python values *)

Module Py.

Definition dquote : ascii := "034"%char.
Definition squote : ascii := "'"%char.
Definition backslash : ascii := "\"%char.

Definition hex_digit (n : nat) : ascii :=
  ascii_of_nat (if n <? 10 then 48 + n else 87 + n).

(** [str.isprintable] on one code point below 256. *)
Definition isprintable (c : ascii) : bool :=
  let n := nat_of_ascii c in
  ((32 <=? n) && (n <? 127)) || ((161 <=? n) && negb (n =? 173)).

Definition escape_char (quote c : ascii) : string :=
  let n := nat_of_ascii c in
  if Ascii.eqb c quote || Ascii.eqb c backslash
  then String backslash (String c EmptyString)
  else if n =? 9 then "\t"
  else if n =? 10 then "\n"
  else if n =? 13 then "\r"
  else if isprintable c then String c EmptyString
  else "\x" +:+ String (hex_digit (n / 16)) (String (hex_digit (n mod 16)) EmptyString).

Fixpoint escape (quote : ascii) (s : string) : string :=
  match s with
  | EmptyString => EmptyString
  | String c s' => escape_char quote c +:+ escape quote s'
  end.

Fixpoint has_char (q : ascii) (s : string) : bool :=
  match s with
  | EmptyString => false
  | String c s' => Ascii.eqb c q || has_char q s'
  end.

(** [repr(s)] of a string: single quotes, unless the string holds a single
    quote and no double quote. *)
Definition repr_str (s : string) : string :=
  let quote :=
    if has_char squote s && negb (has_char dquote s) then dquote else squote in
  String quote (escape quote s) +:+ String quote EmptyString.

(** [repr(v)] *)
Fixpoint repr (v : PyValue) : string :=
  match v with
  | VNone => "None"
  | VBool b => if b then "True" else "False"
  | VInt n => pretty n
  | VStr s => repr_str s
  | VSeq l => "[" +:+ Str.join ", " (List.map repr l) +:+ "]"
  | VMap m =>
      "{" +:+ Str.join ", "
                (List.map (fun '(k, x) => repr_str k +:+ ": " +:+ repr x) m)
      +:+ "}"
  end.

(** [str(v)], which is what an f-string field formats with. *)
Definition str (v : PyValue) : string :=
  match v with
  | VStr s => s
  | _ => repr v
  end.

(** [repr] of a list of strings. *)
Definition repr_list (l : list string) : string :=
  "[" +:+ Str.join ", " (List.map repr_str l) +:+ "]".

(** [type(v).__name__] *)
Definition type_name (v : PyValue) : string :=
  match v with
  | VNone => "NoneType"
  | VBool _ => "bool"
  | VInt _ => "int"
  | VStr _ => "str"
  | VSeq _ => "list"
  | VMap _ => "dict"
  end.

(** [d[k]] of a decoded mapping, if the key is there. *)
Fixpoint lookup_key (k : string) (m : list (string * PyValue))
    : option PyValue :=
  match m with
  | [] => None
  | (k', x) :: m' => if String.eqb k k' then Some x else lookup_key k m'
  end.

(** [v.get(key, default)]: only a mapping has the method. *)
Definition get (v : PyValue) (key : string) (dflt : PyValue)
    : Result PyValue :=
  match v with
  | VMap m => Return (default dflt (lookup_key key m))
  | _ =>
      Raise (mkExc AttributeError
        ("'" +:+ type_name v +:+ "' object has no attribute 'get'"))
  end.

(** [len(v)] *)
Definition len (v : PyValue) : Result nat :=
  match v with
  | VStr s => Return (String.length s)
  | VSeq l => Return (length l)
  | VMap m => Return (length m)
  | _ =>
      Raise (mkExc TypeError
        ("object of type '" +:+ type_name v +:+ "' has no len()"))
  end.

(** [needle in v], for a string [needle]. *)
Definition contains (needle : string) (v : PyValue) : Result bool :=
  match v with
  | VStr s => Return (Str.contains needle s)
  | VSeq l =>
      Return (existsb (fun x => match x with
                                | VStr s => String.eqb needle s
                                | _ => false
                                end) l)
  | VMap m => Return (existsb (fun kv => String.eqb needle (fst kv)) m)
  | _ =>
      Raise (mkExc TypeError
        ("argument of type '" +:+ type_name v +:+ "' is not iterable"))
  end.

End Py.

(** ** types.py *)

(** [SOPMetadata]. A dataclass does not check the annotations of its
    fields: [name] and [description] are kept as the caller gives them,
    decoded YAML where [discover_sops] is the caller. *)
Module SOPMetadata.
Record t : Type := mk {
  name : PyValue;
  description : PyValue;
  extra : list (string * PyValue);
}.
End SOPMetadata.

(** [SOPResource]; [content] keeps its default [None], nothing in the
    toolset assigns it. *)
Module SOPResource.
Record t : Type := mk {
  name : string;
  path : Path;
  content : option string;
}.
End SOPResource.

Module SOPScript.
Record t : Type := mk {
  name : string;
  path : Path;
  sop_name : string;
}.
End SOPScript.

(** [SOP]: the six fields of the dataclass. [name] is the key under which
    the catalog ([dict[str, SOP]]) holds the object, a string. *)
Module SOP.

Record t : Type := mk {
  name : string;
  path : Path;
  metadata : SOPMetadata.t;
  content : string;
  resources : list SOPResource.t;
  scripts : list SOPScript.t;
}.

(** The parameters of the [__init__] that [@dataclass] generates: one per
    field, and no other. *)
Definition fields : list string :=
  ["name"; "path"; "metadata"; "content"; "resources"; "scripts"].

(** The first keyword of a call [SOP(k1=..., k2=..., ...)] that names no
    parameter. *)
Definition rejected (keywords : list string) : option string :=
  List.find (fun k => negb (bool_decide (k ∈ fields))) keywords.

Definition unexpected_keyword (k : string) : Exc :=
  mkExc TypeError
    ("SOP.__init__() got an unexpected keyword argument '" +:+ k +:+ "'").

(** [SOP(k1=..., k2=..., ...)], once the arguments are evaluated. The
    keywords are bound to the parameters before any field is assigned, and
    a keyword that names no parameter is a [TypeError] (with this message
    from CPython 3.10 on, which the annotations of types.py need); so the
    object [obj] is only asked for where every keyword is accepted. The
    one call the package makes passes the four fields that have no
    default. *)
Definition init (keywords : list string) (obj : rejected keywords = None -> t)
    : Result t :=
  match rejected keywords as r return (rejected keywords = r -> Result t) with
  | Some k => fun _ => Raise (unexpected_keyword k)
  | None => fun accepted => Return (obj accepted)
  end eq_refl.

(** [sop.has_toolset]: [has_toolset] is none of the fields and the class
    has no attribute of that name, so on an instance as the constructor
    builds it the read raises [AttributeError]; nothing in the package
    sets the attribute afterwards. *)
Definition has_toolset (sop : t) : Result PyValue :=
  Raise (mkExc AttributeError "'SOP' object has no attribute 'has_toolset'").

End SOP.

(** ** toolset.py: metadata validation *)

Definition is_lower (c : ascii) : bool :=
  let n := nat_of_ascii c in (97 <=? n) && (n <=? 122).
Definition is_digit (c : ascii) : bool :=
  let n := nat_of_ascii c in (48 <=? n) && (n <=? 57).
Definition is_dash (c : ascii) : bool := Ascii.eqb c "-"%char.

(** The class [[a-z0-9-]]. *)
Definition name_char (c : ascii) : bool :=
  is_lower c || is_digit c || is_dash c.

(** What is left after the longest run of [[a-z0-9-]]. *)
Fixpoint after_name_chars (s : string) : string :=
  match s with
  | String c s' => if name_char c then after_name_chars s' else s
  | EmptyString => EmptyString
  end.

(** [SOP_NAME_PATTERN.match(s)] for [re.compile(r'^[a-z0-9-]+$')]: one or
    more characters of the class from the start, the greedy run giving
    nothing back that would help, and then [$], which without [MULTILINE]
    holds at the end of the string and also just before a newline that is
    the last character. *)
Definition SOP_NAME_PATTERN_match (s : string) : bool :=
  match s with
  | String c s' =>
      name_char c
      && (let r := after_name_chars s' in
          String.eqb r EmptyString || String.eqb r Str.nl)
  | EmptyString => false
  end.

(** The set literal [{'anthropic', 'claude'}], in the order written. *)
Definition RESERVED_WORDS : list string := ["anthropic"; "claude"].

Definition length_warning (name : PyValue) (n : nat) : string :=
  "SOP name '" +:+ Py.str name +:+ "' exceeds 64 characters ("
  +:+ pretty n +:+ " chars)".

Definition format_warning (name : PyValue) : string :=
  "SOP name '" +:+ Py.str name
  +:+ "' should contain only lowercase letters, numbers, and hyphens".

Definition reserved_warning (name : PyValue) (reserved : string) : string :=
  "SOP name '" +:+ Py.str name +:+ "' contains reserved word '"
  +:+ reserved +:+ "'".

Definition description_warning (n : nat) : string :=
  "SOP description exceeds 1024 characters (" +:+ pretty n +:+ " chars)".

Definition body_warning (n : nat) : string :=
  "SOP.md body exceeds recommended 500 lines (" +:+ pretty n
  +:+ " lines). Consider splitting into separate resource files.".

(** [SOP_NAME_PATTERN.match(name)] of any value. *)
Definition pattern_match (name : PyValue) : Result bool :=
  match name with
  | VStr s => Return (SOP_NAME_PATTERN_match s)
  | _ =>
      Raise (mkExc TypeError
        ("expected string or bytes-like object, got '"
         +:+ Py.type_name name +:+ "'"))
  end.

Definition _validate_sop_metadata (frontmatter : PyValue)
    (instructions : string) : Result (list string) :=
  let warnings_list := [] in
  name <- Py.get frontmatter "name" (VStr "") ;;
  description <- Py.get frontmatter "description" (VStr "") ;;
  (* Validate name format *)
  warnings_list <-
    (if truthy name then
       n <- Py.len name ;;
       warnings_list <-
         (if 64 <? n then Return (warnings_list ++ [length_warning name n])
          else
            m <- pattern_match name ;;
            Return (if negb m then warnings_list ++ [format_warning name]
                    else warnings_list)) ;;
       for_list
         (fun warnings_list reserved =>
            c <- Py.contains reserved name ;;
            Return (if c then warnings_list ++ [reserved_warning name reserved]
                    else warnings_list))
         RESERVED_WORDS warnings_list
     else Return warnings_list) ;;
  (* Validate description *)
  warnings_list <-
    (if truthy description then
       n <- Py.len description ;;
       Return (if 1024 <? n then warnings_list ++ [description_warning n]
               else warnings_list)
     else Return warnings_list) ;;
  (* Validate instructions length *)
  let lines := Str.lines instructions in
  Return (if 500 <? length lines
          then warnings_list ++ [body_warning (length lines)]
          else warnings_list).

(** ** toolset.py: the manifest parser *)

(** [\s*\n] from the current position. The star is greedy: it takes the
    whole run of whitespace and gives characters back until a newline
    follows, so the match ends after the last newline of the run; there is
    none when the run holds no newline. The result is the text after the
    match. *)
Fixpoint ws_then_newline (s : string) : option string :=
  match s with
  | String c s' =>
      if Str.isspace c then
        match ws_then_newline s' with
        | Some r => Some r
        | None => if Ascii.eqb c Str.LF then Some s' else None
        end
      else None
  | EmptyString => None
  end.

(** [---\s*\n] from the current position. *)
Definition delimiter (s : string) : option string :=
  match s with
  | String a (String b (String c r)) =>
      if is_dash a && is_dash b && is_dash c then ws_then_newline r else None
  | _ => None
  end.

(** [(.*?)^---\s*\n] from the current position: the lazy group grows one
    character at a time (any character, [DOTALL]) until the delimiter
    matches at the start of a line ([MULTILINE]); [bol] says whether the
    current position is one. The result is the group and the text after
    the match. *)
Fixpoint closing (bol : bool) (s : string) : option (string * string) :=
  match (if bol then delimiter s else None) with
  | Some r => Some (EmptyString, r)
  | None =>
      match s with
      | String c s' =>
          match closing (Ascii.eqb c Str.LF) s' with
          | Some (g, r) => Some (String c g, r)
          | None => None
          end
      | EmptyString => None
      end
  end.

(** [re.search(r'^---\s*\n(.*?)^---\s*\n', content, DOTALL | MULTILINE)]:
    the leftmost position from which the whole pattern matches, as
    [(match.group(1), content[match.end():])]. Giving the opening [\s*]
    fewer characters only moves the start of the group back over
    whitespace, where no closing delimiter can start. *)
Fixpoint frontmatter_search (bol : bool) (s : string)
    : option (string * string) :=
  match (if bol then
           match delimiter s with
           | Some r => closing true r
           | None => None
           end
         else None) with
  | Some m => Some m
  | None =>
      match s with
      | String c s' => frontmatter_search (Ascii.eqb c Str.LF) s'
      | EmptyString => None
      end
  end.

Section Parser.

Context (w : World).

Definition parse_sop_md (content : string) : Result (PyValue * string) :=
  match frontmatter_search true content with
  | None =>
      (* No frontmatter, treat entire content as instructions *)
      Return (VMap [], Str.strip content)
  | Some (group1, rest) =>
      let frontmatter_yaml := Str.strip group1 in
      let instructions := Str.strip rest in
      (* Handle empty frontmatter *)
      if negb (Str.nonempty frontmatter_yaml) then Return (VMap [], instructions)
      else
        match safe_load w frontmatter_yaml with
        | Return frontmatter =>
            Return (match frontmatter with
                    | VNone => VMap []
                    | _ => frontmatter
                    end, instructions)
        | Raise e =>
            if isinstance e YAMLError then
              Raise (mkExc SOPValidationError
                       ("Failed to parse YAML frontmatter: " +:+ exc_msg e))
            else Raise e
        end
  end.

End Parser.

(** ** toolset.py: discovery *)

Section Discovery.

Context (w : World).

Definition _discover_resources (sop_folder : Path)
    : Result (list SOPResource.t) :=
  let resources := [] in
  (* Find .md files other than SOP.md *)
  resources <-
    for_each
      (fun resources md_file =>
         if negb (String.eqb (Str.upper (PurePath.name md_file)) "SOP.MD")
         then
           p <- resolve w md_file ;;
           Return (resources ++ [SOPResource.mk (PurePath.name md_file) p None])
         else Return resources)
      (glob w sop_folder GlobMd) resources ;;
  (* Find files in resources/ subdirectory if it exists *)
  let resources_dir := sop_folder // "resources" in
  e <- exists_ w resources_dir ;;
  d <- (if e then is_dir w resources_dir else Return false) ;;
  if d then
    for_each
      (fun resources resource_file =>
         f <- is_file w resource_file ;;
         if f then
           rel_path <- PurePath.relative_to resource_file sop_folder ;;
           p <- resolve w resource_file ;;
           Return (resources
                   ++ [SOPResource.mk (PurePath.to_str rel_path) p None])
         else Return resources)
      (glob w resources_dir RGlobAll) resources
  else Return resources.

Definition _check_toolset (sop_folder : Path) (sop_name : PyValue)
    : Result bool :=
  e <- exists_ w (sop_folder // "tools" // "toolset.py") ;;
  if e then Return true else Return false.

(** [frontmatter.items()] without the two named keys. *)
Definition extra_fields (frontmatter : PyValue) : list (string * PyValue) :=
  match frontmatter with
  | VMap m =>
      List.filter
        (fun kv => negb (String.eqb (fst kv) "name"
                         || String.eqb (fst kv) "description")) m
  | _ => []
  end.

(** The body of the [try] statement of [discover_sops] for one manifest,
    in two halves. The first, from [read_text] to the validator, gives the
    identifier, the metadata and the instructions; [None] is the
    [continue] of a missing identifier under validation. *)
Definition read_manifest (validate : bool) (sop_file : Path)
    : Result (option (PyValue * SOPMetadata.t * string)) :=
  let sop_folder := PurePath.parent sop_file in
  content <- read_text w sop_file ;;
  parsed <- parse_sop_md w content ;;
  let frontmatter := fst parsed in
  let instructions := snd parsed in
  (* Get required fields *)
  name <- Py.get frontmatter "name" VNone ;;
  description <- Py.get frontmatter "description" (VStr "") ;;
  (* Validation *)
  if validate && negb (truthy name) then Return None
  else
    (* Use folder name if name not provided *)
    let name :=
      if negb (truthy name) then VStr (PurePath.name sop_folder) else name in
    (* Extract extra metadata fields *)
    let extra := extra_fields frontmatter in
    (* Create metadata *)
    let metadata := SOPMetadata.mk name description extra in
    (* Validate metadata (log warnings) *)
    _ <- (if validate then _validate_sop_metadata frontmatter instructions
          else Return []) ;;
    Return (Some (name, metadata, instructions)).

(** The second half: resources, the companion toolset, and the [SOP]. The
    call of the constructor passes [has_toolset], which is no field of the
    dataclass: the object is never built, and [sops.append(sop)] is not
    reached. *)
Definition load_sop_file (validate : bool) (sop_file : Path)
    : Result (option SOP.t) :=
  let sop_folder := PurePath.parent sop_file in
  manifest <- read_manifest validate sop_file ;;
  match manifest with
  | None => Return None
  | Some (name, metadata, instructions) =>
      (* Discover resources and scripts *)
      resources <- _discover_resources sop_folder ;;
      has_toolset <- _check_toolset sop_folder name ;;
      (* Create SOP *)
      path <- resolve w sop_folder ;;
      sop <- SOP.init
               ["name"; "path"; "metadata"; "content"; "has_toolset"; "resources"]
               (fun accepted => ltac:(discriminate accepted)) ;;
      Return (Some sop)
  end.

(** One iteration of the inner loop: the [try] statement with its two
    handlers, [except SOPValidationError: raise] and
    [except OSError: continue]. *)
Definition discover_one (validate : bool) (sops : list SOP.t) (sop_file : Path)
    : Result (list SOP.t) :=
  match load_sop_file validate sop_file with
  | Return (Some sop) => Return (sops ++ [sop])
  | Return None => Return sops
  | Raise e =>
      if isinstance e SOPValidationError then Raise e
      else if isinstance e OSError then Return sops
      else Raise e
  end.

(** One iteration of the outer loop. *)
Definition discover_dir (validate : bool) (sops : list SOP.t) (sop_dir : Path)
    : Result (list SOP.t) :=
  home <- expanduser w sop_dir ;;
  dir_path <- resolve w home ;;
  e <- exists_ w dir_path ;;
  if negb e then Return sops
  else
    d <- is_dir w dir_path ;;
    if negb d then Return sops
    else
      (* Find all SOP.md files (recursive search) *)
      for_each (discover_one validate) (glob w dir_path GlobSopMd) sops.

Definition discover_sops (directories : list Path) (validate : bool)
    : Result (list SOP.t) :=
  for_list (discover_dir validate) directories [].

Definition _is_safe_path (base_path target_path : Path) : Result bool :=
  match (target <- resolve w target_path ;;
         base <- resolve w base_path ;;
         PurePath.relative_to target base) with
  | Return _ => Return true
  | Raise e => if isinstance e ValueError then Return false else Raise e
  end.

Definition _import_toolset (toolset_path : Path) : Result FunctionToolset :=
  exec_module w toolset_path.

End Discovery.

(** ** toolset.py: the toolset and its tools *)

(** What a tool does to the world, in order: the calls of [_is_safe_path],
    the companion modules executed, the resource files read, and the
    toolsets assigned to [ctx.deps.state.sop_toolset]. *)
Inductive Event : Type :=
  | SafePathChecked (base_path target_path : Path)
  | ModuleExecuted (toolset_path : Path)
  | TextRead (path : Path)
  | StatePublished (sop_ts : FunctionToolset).

(** A computation with its events; an exception keeps the events that
    came before it. *)
Definition Traced (A : Type) : Type := (list Event * Result A)%type.

Definition tret {A : Type} (a : A) : Traced A := ([], Return a).

Definition tbind {A B : Type} (m : Traced A) (k : A -> Traced B) : Traced B :=
  match m with
  | (t, Return a) => let (t', r) := k a in (t ++ t', r)
  | (t, Raise e) => (t, Raise e)
  end.

Definition perform {A : Type} (ev : Event) (r : Result A) : Traced A :=
  ([ev], r).

Notation "x <~ m ;; k" := (tbind m (fun x => k))
  (at level 100, m at next level, right associativity) : py_scope.

(** [ctx.deps.state], when [ctx.deps] has the attribute: the slot the
    activated toolset is published in, and what assigning the slot raises
    where the object does not take the assignment ([None], a frozen
    dataclass). *)
Record SessionState : Type := mkState {
  sop_toolset : option FunctionToolset;
  setattr_error : option Exc;
}.
Record RunContext : Type := mkCtx { deps_state : option SessionState }.

(** The attributes of [SOPsToolset] the tools read ([_script_timeout] and
    [_python_executable] are assigned once and never read). *)
Record SOPsToolset : Type := mkSOPsToolset {
  _directories : list Path;
  _validate : bool;
  _sops : gmap string SOP.t;
}.

(** [{sop.name: sop for sop in sops}] *)
Definition sops_dict (sops : list SOP.t) : gmap string SOP.t :=
  foldl (fun d sop => <[SOP.name sop := sop]> d) ∅ sops.

Definition str_le (a b : string) : Prop := String.leb a b = true.

#[global] Instance str_le_dec (a b : string) : Decision (str_le a b).
Proof. unfold str_le. apply _. Defined.

(** [sorted(d.keys())] and [sorted(d.items())] (the keys are distinct, so
    the pairs are ordered by key). *)
Definition sorted_keys (d : gmap string SOP.t) : list string :=
  merge_sort str_le (List.map fst (map_to_list d)).
Definition sorted_items (d : gmap string SOP.t) : list (string * SOP.t) :=
  merge_sort (fun a b => str_le (fst a) (fst b)) (map_to_list d).

(** [bool(d)] of a dict *)
Definition dict_nonempty (d : gmap string SOP.t) : bool :=
  negb (bool_decide (d = ∅)).

Section Toolset.

Context (w : World).

Definition _discover_sops (self : SOPsToolset) : Result SOPsToolset :=
  sops <- discover_sops w (_directories self) (_validate self) ;;
  Return (mkSOPsToolset (_directories self) (_validate self) (sops_dict sops)).

(** [SOPsToolset.__init__] *)
Definition init (directories : list Path) (auto_discover validate : bool)
    : Result SOPsToolset :=
  let self := mkSOPsToolset directories validate ∅ in
  if auto_discover then _discover_sops self else Return self.

Definition _get_toolset (self : SOPsToolset) (sop_name : string)
    : Traced FunctionToolset :=
  match _sops self !! sop_name with
  | Some sop =>
      let toolset_path := SOP.path sop // "tools" // "toolset.py" in
      perform (ModuleExecuted toolset_path) (_import_toolset w toolset_path)
  | None => ([], Raise (mkExc KeyError (Py.repr_str sop_name)))
  end.

Definition list_sops (self : SOPsToolset) : string :=
  if negb (dict_nonempty (_sops self)) then "No SOPs available."
  else
    let lines := ["# Available SOPs"; ""] in
    let lines :=
      lines ++ List.map
                 (fun '(name, sop) =>
                    name +:+ ": "
                    +:+ Py.str (SOPMetadata.description (SOP.metadata sop)))
                 (sorted_items (_sops self)) in
    Str.join Str.nl lines.

(** [if hasattr(ctx.deps, 'state'): ctx.deps.state.sop_toolset = sop_ts] *)
Definition publish (ctx : RunContext) (sop_ts : FunctionToolset) : Traced unit :=
  match deps_state ctx with
  | Some state =>
      match setattr_error state with
      | None => perform (StatePublished sop_ts) (Return tt)
      | Some e => ([], Raise e)
      end
  | None => tret tt
  end.

Definition activate_sop (self : SOPsToolset) (ctx : RunContext)
    (sop_name : string) : Traced string :=
  match _sops self !! sop_name with
  | None =>
      let joined := Str.join ", " (sorted_keys (_sops self)) in
      let available := if Str.nonempty joined then joined else "none" in
      tret ("Error: SOP '" +:+ sop_name +:+ "' not found. Available SOPs: "
            +:+ available)
  | Some sop =>
      let lines :=
        [ "# SOP: " +:+ SOP.name sop;
          "**Description:** "
          +:+ Py.str (SOPMetadata.description (SOP.metadata sop));
          "**Path:** " +:+ PurePath.to_str (SOP.path sop);
          "" ] in
      (* Add toolset if available *)
      has_toolset <~ ([], SOP.has_toolset sop) ;;
      lines <~ (if truthy has_toolset then
                  let lines := lines ++ ["**Available Tools:**"] in
                  sop_ts <~ _get_toolset self sop_name ;;
                  _ <~ publish ctx sop_ts ;;
                  tools <~ ([], tools_keys sop_ts) ;;
                  let lines :=
                    lines ++ List.map (fun tool => "- " +:+ tool) tools in
                  tret (lines ++ [""])
                else tret lines) ;;
      (* Add resource list if available *)
      let lines :=
        match SOP.resources sop with
        | [] => lines
        | _ =>
            lines ++ ["**Available Resources:**"]
            ++ List.map (fun resource => "- " +:+ SOPResource.name resource)
                 (SOP.resources sop)
            ++ [""]
        end in
      let lines := lines ++ ["---"; ""; SOP.content sop] in
      tret (Str.join Str.nl lines)
  end.

Definition read_sop_resource (self : SOPsToolset) (sop_name : string)
    (resource_name : string) : Traced string :=
  match _sops self !! sop_name with
  | None => tret ("Error: SOP '" +:+ sop_name +:+ "' not found.")
  | Some sop =>
      (* Find the resource *)
      match List.find
              (fun r => String.eqb (SOPResource.name r) resource_name)
              (SOP.resources sop) with
      | None =>
          let available := List.map SOPResource.name (SOP.resources sop) in
          tret ("Error: Resource '" +:+ resource_name +:+ "' not found in SOP '"
                +:+ sop_name +:+ "'. " +:+ "Available resources: "
                +:+ Py.repr_list available)
      | Some resource =>
          (* Security check *)
          safe <~ perform
                    (SafePathChecked (SOP.path sop) (SOPResource.path resource))
                    (_is_safe_path w (SOP.path sop) (SOPResource.path resource)) ;;
          if negb safe then tret "Error: Resource path escapes SOP directory."
          else
            perform (TextRead (SOPResource.path resource))
              match read_text w (SOPResource.path resource) with
              | Return content => Return content
              | Raise e =>
                  if isinstance e OSError then
                    Raise (mkExc SOPResourceLoadError
                             ("Failed to read resource '" +:+ resource_name
                              +:+ "': " +:+ exc_msg e))
                  else Raise e
              end
      end
  end.

Definition get_sops_system_prompt (self : SOPsToolset) : string :=
  if negb (dict_nonempty (_sops self)) then ""
  else
    let lines :=
      [ "# SOPs(Standard Operating Procedures)";
        "";
        "You have access to SOPs that extend your capabilities. ";
        "SOPs are modular packages containing instructions, resources, and toolset for specialized tasks.";
        "SOPs are in standby mode by default. You must use the `activate_sop` tool to activate a SOP and make it the current available SOP.";
        "**State management**: Only one SOP can be available at a time. When you activate a new SOP, it becomes the current available SOP and the SOP's tools become available to you.";
        "";
        "**You CANNOT call SOPs directly. You MUST use SOP tools to interact with SOPs. You can use `list_sops()` to list all available SOPs.**";
        "- `activate_sop(sop_name)` - to activate a SOP (load its instructions and make it the current available SOP and its tools become available to you)";
        "- `read_sop_resource(sop_name, resource_name)` - to read SOP resources";
        "";
        "## Standby SOPs";
        "";
        "The following SOPs are in standby mode:";
        "" ] in
    (* List all SOPs with descriptions *)
    let lines :=
      lines
      ++ List.map
           (fun '(name, sop) =>
              "- **" +:+ name +:+ "**: "
              +:+ Py.str (SOPMetadata.description (SOP.metadata sop)))
           (sorted_items (_sops self)) in
    let lines :=
      lines
      ++ [ "## How to Use SOPs";
           "";
           "**REMINDER: SOPs are NOT callable. You MUST use SOP tools (activate_sop, read_sop_resource, etc.) to interact with SOPs.**";
           "";
           "**Progressive disclosure**: Activate SOPs only when needed.";
           "";
           "1. **When a SOP is relevant to the current task**: Use `activate_sop(sop_name)` to activate the SOP and read its full instructions.";
           "2. **For additional documentation**: Use `read_sop_resource(sop_name, resource_name)` to read FORMS.md, REFERENCE.md, or other resources.";
           "";
           "**CRITICAL: Parameter Requirements**";
           "";
           "**Best practices**:";
           "- Select SOPs based on task relevance and descriptions listed above";
           "- If you need more details, call `activate_sop(sop_name)` to activate and read full instructions and resources";
           "" ] in
    Str.join Str.nl lines.

Definition get_sop (self : SOPsToolset) (name : string) : Result SOP.t :=
  match _sops self !! name with
  | None =>
      Raise (mkExc SOPNotFoundError ("SOP '" +:+ name +:+ "' not found"))
  | Some sop => Return sop
  end.

Definition refresh (self : SOPsToolset) : Result SOPsToolset :=
  _discover_sops self.

End Toolset.

(** ** A toolset in use *)







(** ** Worlds for the examples *)

(** A world given by tables: what is not in a table does not exist. *)
Module Fixture.

Record t : Type := mk {
  (** directories that exist *)
  directories : list Path;
  (** regular files, with what reading them as UTF-8 gives *)
  files : list (Path * Result string);
  (** paths that [stat] fails on, with the error *)
  stat_errors : list (Path * Exc);
  (** what [resolve] gives for a path that is not its own canonical form *)
  resolutions : list (Path * Result Path);
  (** what a directory yields for a pattern *)
  listings : list (Path * GlobPattern * Iteration Path);
  (** what [yaml.safe_load] gives *)
  documents : list (string * Result PyValue);
  (** what executing a module gives *)
  modules : list (Path * Result FunctionToolset);
}.

Fixpoint assoc {K V : Type} `{EqDecision K} (k : K) (l : list (K * V))
    : option V :=
  match l with
  | [] => None
  | (k', v) :: l' => if bool_decide (k = k') then Some v else assoc k l'
  end.

Definition no_such_file (p : Path) : Exc :=
  mkExc FileNotFoundError
    ("[Errno 2] No such file or directory: " +:+ Py.repr_str (PurePath.to_str p)).

(** [stat] succeeds on [p] and [test] holds of what is there; a path that
    is absent gives [False], another [stat] error is raised. *)
Definition stat_test (f : t) (test : Path -> bool) (p : Path) : Result bool :=
  match assoc p (stat_errors f) with
  | Some e => Raise e
  | None => Return (test p)
  end.

Definition is_directory (f : t) (p : Path) : bool :=
  bool_decide (p ∈ directories f).
Definition is_regular (f : t) (p : Path) : bool :=
  bool_decide (p ∈ List.map fst (files f)).

#[global] Instance GlobPattern_eq_dec : EqDecision GlobPattern.
Proof. solve_decision. Defined.

Definition world (f : t) : World := {|
  expanduser := Return;
  resolve p := default (Return p) (assoc p (resolutions f));
  exists_ := stat_test f (fun p => is_directory f p || is_regular f p);
  is_dir := stat_test f (is_directory f);
  is_file := stat_test f (is_regular f);
  glob p pat := default (mkIteration [] None) (assoc (p, pat) (listings f));
  read_text p := default (Raise (no_such_file p)) (assoc p (files f));
  safe_load s :=
    default (Raise (mkExc YAMLError "could not determine a constructor"))
      (assoc s (documents f));
  exec_module p := default (Raise (no_such_file p)) (assoc p (modules f));
|}.

End Fixture.

Definition doc (lines : list string) : string := Str.join Str.nl lines.
Definition root (parts : list string) : Path := mkPath true parts.

(** The manifest of [test_discover_sops_missing_name_with_validation] and
    [..._without_validation], in [tmp_path/test-sop]. *)
Module MissingName.

Definition tmp_path : Path := root ["tmp"; "t"].
Definition sop_dir : Path := tmp_path // "test-sop".
Definition sop_md : Path := sop_dir // "SOP.md".

Definition text : string :=
  doc ["---"; "description: Missing name field"; "---"; ""; "Content."; ""].

Definition fixture : Fixture.t := {|
  Fixture.directories := [tmp_path; sop_dir];
  Fixture.files := [(sop_md, Return text)];
  Fixture.stat_errors := [];
  Fixture.resolutions := [];
  Fixture.listings :=
    [ (tmp_path, GlobSopMd, mkIteration [sop_md] None);
      (sop_dir, GlobMd, mkIteration [sop_md] None) ];
  Fixture.documents :=
    [ ("description: Missing name field",
       Return (VMap [("description", VStr "Missing name field")])) ];
  Fixture.modules := [];
|}.

Definition w : World := Fixture.world fixture.

End MissingName.

(** A procedure under [/sops]: [alpha] has a reference document and,
    under [resources/], a directory that can be listed but not searched,
    so that [stat] on the file in it is refused and [is_file] raises
    [PermissionError] (CPython up to 3.12). *)
Module LockedResource.

Definition sops : Path := root ["sops"].
Definition alpha : Path := sops // "alpha".
Definition locked : Path := alpha // "resources" // "locked".
Definition secret : Path := locked // "secret.txt".

Definition denied : Exc :=
  mkExc PermissionError
    "[Errno 13] Permission denied: '/sops/alpha/resources/locked/secret.txt'".

Definition fixture : Fixture.t := {|
  Fixture.directories := [sops; alpha; alpha // "resources"; locked];
  Fixture.files :=
    [ (alpha // "SOP.md",
       Return (doc ["---"; "name: alpha"; "description: First"; "---"; "A."]));
      (alpha // "FORMS.md", Return "# Forms");
      (secret, Raise denied) ];
  Fixture.stat_errors := [(secret, denied)];
  Fixture.resolutions := [];
  Fixture.listings :=
    [ (sops, GlobSopMd, mkIteration [alpha // "SOP.md"] None);
      (alpha, GlobMd, mkIteration [alpha // "FORMS.md"; alpha // "SOP.md"] None);
      (alpha // "resources", RGlobAll, mkIteration [locked; secret] None) ];
  Fixture.documents :=
    [ (doc ["name: alpha"; "description: First"],
       Return (VMap [("name", VStr "alpha"); ("description", VStr "First")])) ];
  Fixture.modules := [];
|}.

Definition w : World := Fixture.world fixture.


End LockedResource.

(** The same procedure, where [alpha] holds instead a symbolic link
    [loop.md] that points at itself: [resolve] raises [RuntimeError] on it
    (CPython up to 3.12). *)
Module SymlinkLoop.

Import LockedResource.

Definition loop : Path := alpha // "loop.md".

Definition symlink_loop : Exc :=
  mkExc RuntimeError "Symlink loop from '/sops/alpha/loop.md'".

Definition fixture : Fixture.t := {|
  Fixture.directories := [sops; alpha];
  Fixture.files := Fixture.files LockedResource.fixture;
  Fixture.stat_errors := [];
  Fixture.resolutions := [(loop, Raise symlink_loop)];
  Fixture.listings :=
    [ (sops, GlobSopMd, mkIteration [alpha // "SOP.md"] None);
      (alpha, GlobMd,
       mkIteration [alpha // "FORMS.md"; loop; alpha // "SOP.md"] None) ];
  Fixture.documents := Fixture.documents LockedResource.fixture;
  Fixture.modules := [];
|}.

Definition w : World := Fixture.world fixture.

End SymlinkLoop.

(** A process whose working directory has been removed: a relative path
    cannot be made absolute, and [resolve] raises [FileNotFoundError] (in
    every version of CPython). *)
Module RemovedCwd.

Definition notes : Path := mkPath false ["notes.md"].
Definition here : Path := mkPath false [].

Definition no_cwd : Exc :=
  mkExc FileNotFoundError "[Errno 2] No such file or directory".

Definition fixture : Fixture.t := {|
  Fixture.directories := [];
  Fixture.files := [];
  Fixture.stat_errors := [];
  Fixture.resolutions := [(notes, Raise no_cwd); (here, Raise no_cwd)];
  Fixture.listings := [];
  Fixture.documents := [];
  Fixture.modules := [];
|}.

Definition w : World := Fixture.world fixture.

End RemovedCwd.

(** Manifests that fail, each in its own way: [scalar]'s metadata block
    is a YAML scalar, [binary] is not UTF-8, [broken]'s block is not YAML,
    [unreadable] cannot be opened. *)
Module FailingManifests.

Definition sops : Path := root ["sops"].
Definition scalar : Path := sops // "scalar".
Definition binary : Path := sops // "binary".
Definition broken : Path := sops // "broken".
Definition unreadable : Path := sops // "unreadable".

Definition scalar_text : string := doc ["---"; "just a string"; "---"; "S."].
Definition broken_text : string := doc ["---"; "name: [alpha"; "---"; "B."].

Definition not_utf8 : Exc :=
  mkExc UnicodeDecodeError
    "'utf-8' codec can't decode byte 0xff in position 0: invalid start byte".
Definition denied : Exc :=
  mkExc PermissionError
    "[Errno 13] Permission denied: '/sops/unreadable/SOP.md'".
Definition yaml_error : Exc :=
  mkExc YAMLError "while parsing a flow sequence: expected ',' or ']'".

(** What [parse_sop_md] makes of [yaml_error]. *)
Definition broken_error : Exc :=
  mkExc SOPValidationError
    ("Failed to parse YAML frontmatter: " +:+ exc_msg yaml_error).

(** The world in which [/sops] holds the procedures [found], met in that
    order. *)
Definition fixture (found : list Path) : Fixture.t := {|
  Fixture.directories := sops :: found;
  Fixture.files :=
    [ (scalar // "SOP.md", Return scalar_text);
      (binary // "SOP.md", Raise not_utf8);
      (broken // "SOP.md", Return broken_text);
      (unreadable // "SOP.md", Raise denied) ];
  Fixture.stat_errors := [];
  Fixture.resolutions := [];
  Fixture.listings :=
    [ (sops, GlobSopMd,
       mkIteration (List.map (fun d => d // "SOP.md") found) None) ];
  Fixture.documents :=
    [ ("just a string", Return (VStr "just a string"));
      ("name: [alpha", Raise yaml_error) ];
  Fixture.modules := [];
|}.

Definition w (found : list Path) : World := Fixture.world (fixture found).

End FailingManifests.

(** A toolset built over no directory, [SOPsToolset(directories=[])], in
    whose catalog a caller has put two procedures: the property [sops]
    hands out the dict itself, and [SOP], [SOPMetadata] and [SOPResource]
    are exported for callers to build. The two procedures are those of the
    directories [/sops/alpha] and [/sops/deploy]. *)
Module FilledCatalog.

Definition sops : Path := root ["sops"].
Definition alpha : Path := sops // "alpha".
Definition deploy : Path := sops // "deploy".

Definition fixture : Fixture.t := {|
  Fixture.directories := [sops; alpha; deploy];
  Fixture.files :=
    [ (alpha // "SOP.md",
       Return (doc ["---"; "name: alpha"; "description: First"; "---"; "A."]));
      (alpha // "FORMS.md", Return "# Forms");
      (deploy // "SOP.md",
       Return (doc ["---"; "name: deploy"; "description: Ship it"; "---"; "D."])) ];
  Fixture.stat_errors := [];
  Fixture.resolutions := [];
  Fixture.listings :=
    [ (sops, GlobSopMd, mkIteration [alpha // "SOP.md"; deploy // "SOP.md"] None);
      (alpha, GlobMd, mkIteration [alpha // "FORMS.md"; alpha // "SOP.md"] None);
      (deploy, GlobMd, mkIteration [deploy // "SOP.md"] None) ];
  Fixture.documents :=
    [ (doc ["name: alpha"; "description: First"],
       Return (VMap [("name", VStr "alpha"); ("description", VStr "First")]));
      (doc ["name: deploy"; "description: Ship it"],
       Return (VMap [("name", VStr "deploy"); ("description", VStr "Ship it")])) ];
  Fixture.modules := [];
|}.

Definition w : World := Fixture.world fixture.

Definition alpha_sop : SOP.t :=
  SOP.mk "alpha" alpha (SOPMetadata.mk (VStr "alpha") (VStr "First") []) "A."
    [SOPResource.mk "FORMS.md" (alpha // "FORMS.md") None] [].
Definition deploy_sop : SOP.t :=
  SOP.mk "deploy" deploy (SOPMetadata.mk (VStr "deploy") (VStr "Ship it") [])
    "D." [] [].

(** The toolset as it is built, and with the two procedures in. *)
Definition empty : SOPsToolset := mkSOPsToolset [] true ∅.
Definition toolset : SOPsToolset :=
  mkSOPsToolset [] true (sops_dict [alpha_sop; deploy_sop]).

Definition ctx : RunContext := mkCtx (Some (mkState None None)).

End FilledCatalog.

(** A name that ends in a newline, as the YAML block scalar
    [name: |] followed by the line [abc] decodes to. *)
Definition newline_name : string := "abc" +:+ Str.nl.

(** Every character of the string is in [[a-z0-9-]]. *)
Fixpoint only_name_chars (s : string) : bool :=
  match s with
  | EmptyString => true
  | String c s' => name_char c && only_name_chars s'
  end.

(** ** Vocabulary of the statements *)

(** Every character is whitespace. *)
Fixpoint all_space (s : string) : bool :=
  match s with
  | EmptyString => true
  | String c s' => Str.isspace c && all_space s'
  end.

(** A delimiter line: [---], then only whitespace. *)
Definition delimiter_line (l : string) : bool :=
  match l with
  | String a (String b (String c t)) =>
      is_dash a && is_dash b && is_dash c && all_space t
  | _ => false
  end.

(** The first line of [s] satisfies [p] and a newline ends it. *)
Definition head_line (p : string -> bool) (s : string) : bool :=
  match Str.lines s with
  | l :: _ :: _ => p l
  | _ => false
  end.

(** Whether a match was found. *)
Definition matched {A : Type} (o : option A) : bool :=
  match o with Some _ => true | None => false end.

(** The positions of [s], from the current one on, that start a line and
    from which [---\s*\n] matches. *)
Fixpoint delimiters (bol : bool) (s : string) : nat :=
  (if bol && matched (delimiter s) then 1 else 0)
  + match s with
    | String c s' => delimiters (Ascii.eqb c Str.LF) s'
    | EmptyString => 0
    end.

(** The delimiter lines among the lines that a newline ends, which are
    all but the last. *)
Definition terminated_delimiters (ls : list string) : nat :=
  length (List.filter delimiter_line (removelast ls)).


(** Discovery over [directories] gets to the manifest [sop_file] with the
    procedures [sops] collected so far: the roots before the root of
    [sop_file], and the manifests found before it under that root, have
    been gone through without an exception that ends the call. *)
Definition encountered (w : World) (validate : bool) (directories : list Path)
    (sop_file : Path) (sops : list SOP.t) : Prop :=
  exists (before_dirs after_dirs : list Path) (sop_dir home dir_path : Path)
         (collected : list SOP.t) (before_files after_files : list Path)
         (fin : option Exc),
    directories = before_dirs ++ sop_dir :: after_dirs
    /\ for_list (discover_dir w validate) before_dirs [] = Return collected
    /\ expanduser w sop_dir = Return home
    /\ resolve w home = Return dir_path
    /\ exists_ w dir_path = Return true
    /\ is_dir w dir_path = Return true
    /\ glob w dir_path GlobSopMd
       = mkIteration (before_files ++ sop_file :: after_files) fin
    /\ for_list (discover_one w validate) before_files collected = Return sops.

(** Decoding the metadata block of the manifest [sop_file] fails: the file
    reads, it has a metadata block that is not blank, and [yaml.safe_load]
    raises a [YAMLError] on it; [e] is what [parse_sop_md] raises then. *)
Definition decode_fails (w : World) (sop_file : Path) (e : Exc) : Prop :=
  exists (content group1 rest : string) (cause : Exc),
    read_text w sop_file = Return content
    /\ frontmatter_search true content = Some (group1, rest)
    /\ Str.nonempty (Str.strip group1) = true
    /\ safe_load w (Str.strip group1) = Raise cause
    /\ isinstance cause YAMLError = true
    /\ e = mkExc SOPValidationError
             ("Failed to parse YAML frontmatter: " +:+ exc_msg cause).



(** ** Vocabulary of the further statements *)

(** The property [SOP.description] of [types.py]. *)
Definition sop_description (sop : SOP.t) : PyValue :=
  SOPMetadata.description (SOP.metadata sop).

(** The property [SOPsToolset.sops]: the dict of the catalog itself, not a
    copy. *)
Definition sops (self : SOPsToolset) : gmap string SOP.t := _sops self.

(** [x] without the blank lines it starts with: what follows the last
    newline of its leading whitespace ([x] itself when that whitespace
    holds no newline). *)
Definition skip_blank (x : string) : string := default x (ws_then_newline x).

(** A manifest written the usual way: the metadata block [yaml] between
    two [---] lines at the top, then [body]. *)
Definition manifest (yaml body : string) : string :=
  "---" +:+ Str.nl +:+ yaml +:+ Str.nl +:+ "---" +:+ Str.nl +:+ body.

(** No line is a delimiter line. *)
Definition no_delimiter_line (ls : list string) : bool :=
  forallb (fun l => negb (delimiter_line l)) ls.

(** What [parse_sop_md] makes of a metadata block that is not blank. *)
Definition decoded (w : World) (frontmatter_yaml instructions : string)
    : Result (PyValue * string) :=
  match safe_load w frontmatter_yaml with
  | Return frontmatter =>
      Return (match frontmatter with
              | VNone => VMap []
              | _ => frontmatter
              end, instructions)
  | Raise e =>
      if isinstance e YAMLError then
        Raise (mkExc SOPValidationError
                 ("Failed to parse YAML frontmatter: " +:+ exc_msg e))
      else Raise e
  end.

(** The last character is a newline. *)
Fixpoint ends_in_newline (s : string) : bool :=
  match s with
  | EmptyString => false
  | String c EmptyString => Ascii.eqb c Str.LF
  | String _ s' => ends_in_newline s'
  end.

(** No reserved word occurs in the identifier. *)
Definition no_reserved_word (name : string) : bool :=
  forallb (fun reserved => negb (Str.contains reserved name)) RESERVED_WORDS.

(** An identifier of 72 characters, one of them a capital. *)
Definition long_name : string :=
  "this-identifier-is-much-too-long-for-the-64-character-limit-Of-SOP-names".

(** [target] is [base] or lies below it: the same anchor, and the
    components of [base] followed by more. *)
Definition below (base target : Path) : Prop :=
  absolute target = absolute base
  /\ exists more, parts target = parts base ++ more.

(** Where a resource of the procedure in [sop_folder] comes from: a
    Markdown file the folder lists, not named [SOP.md] in any letter case,
    under its file name; or a regular file found under [resources/] that
    lies below the folder, under its path relative to the folder. Either
    way its path is the resolved path of the file, and it has no content
    loaded. *)
Definition resource_of (w : World) (sop_folder : Path) (r : SOPResource.t)
    : Prop :=
  SOPResource.content r = None
  /\ ((exists md_file,
         md_file ∈ yielded (glob w sop_folder GlobMd)
         /\ Str.upper (PurePath.name md_file) <> "SOP.MD"
         /\ SOPResource.name r = PurePath.name md_file
         /\ resolve w md_file = Return (SOPResource.path r))
      \/ (exists resource_file more,
            resource_file ∈ yielded (glob w (sop_folder // "resources") RGlobAll)
            /\ is_file w resource_file = Return true
            /\ absolute resource_file = absolute sop_folder
            /\ parts resource_file = parts sop_folder ++ more
            /\ SOPResource.name r = PurePath.to_str (mkPath false more)
            /\ resolve w resource_file = Return (SOPResource.path r))).

(** [SOPResourceLoadError] as [read_sop_resource] raises it for the
    [OSError] [e]. *)
Definition resource_load_error (resource_name : string) (e : Exc) : Exc :=
  mkExc SOPResourceLoadError
    ("Failed to read resource '" +:+ resource_name +:+ "': " +:+ exc_msg e).

(** [SOPNotFoundError] as [get_sop] raises it. *)
Definition sop_not_found (name : string) : Exc :=
  mkExc SOPNotFoundError ("SOP '" +:+ name +:+ "' not found").

(** A warning about the identifier: the three of them start alike. *)
Fixpoint starts_with (pre s : string) : bool :=
  match pre, s with
  | EmptyString, _ => true
  | String a pre', String b s' => Ascii.eqb a b && starts_with pre' s'
  | String _ _, EmptyString => false
  end.

Definition about_name (warning : string) : bool :=
  starts_with "SOP name '" warning.

(** The line [list_sops] writes for an entry of the catalog. *)
Definition catalog_line (item : string * SOP.t) : string :=
  item.1 +:+ ": "
  +:+ Py.str (SOPMetadata.description (SOP.metadata item.2)).

(** * Properties *)

(** ** The manifest parser *)

Lemma lines_not_nil (s : string) : Str.lines s <> [].
Proof.
  induction s as [|c s IH]; simpl; [done|].
  destruct (Ascii.eqb c Str.LF); [done|].
  destruct (Str.lines s); done.
Qed.

Lemma head_line_nil (p : string -> bool) : head_line p EmptyString = false.
Proof. reflexivity. Qed.

Lemma head_line_cons (p : string -> bool) (c : ascii) (s : string) :
  head_line p (String c s) =
  if Ascii.eqb c Str.LF then p EmptyString
  else head_line (fun l => p (String c l)) s.
Proof.
  unfold head_line. simpl. pose proof (lines_not_nil s) as Hne.
  destruct (Ascii.eqb c Str.LF), (Str.lines s) as [|l [|l' ls]]; done.
Qed.

Lemma head_line_andb (b : bool) (p : string -> bool) (s : string) :
  head_line (fun l => b && p l) s = b && head_line p s.
Proof.
  unfold head_line. destruct (Str.lines s) as [|l [|l' ls]], b; done.
Qed.

Lemma head_line_false (s : string) : head_line (fun _ => false) s = false.
Proof. unfold head_line. destruct (Str.lines s) as [|l [|l' ls]]; done. Qed.

Lemma eqb_LF_not_dash (c : ascii) :
  Ascii.eqb c Str.LF = true -> is_dash c = false.
Proof. intros H%Ascii.eqb_eq. subst. reflexivity. Qed.

Lemma ws_then_newline_head (s : string) :
  matched (ws_then_newline s) = head_line all_space s.
Proof.
  induction s as [|c s IH]; [done|].
  rewrite head_line_cons. cbn [ws_then_newline all_space].
  rewrite (head_line_andb (Str.isspace c) all_space s), <- IH.
  destruct (Ascii.eqb c Str.LF) eqn:Hc.
  - apply Ascii.eqb_eq in Hc. subst c.
    change (Str.isspace Str.LF) with true. cbn iota.
    destruct (ws_then_newline s); done.
  - destruct (Str.isspace c), (ws_then_newline s); done.
Qed.

Lemma delimiter_head (s : string) :
  matched (delimiter s) = head_line delimiter_line s.
Proof.
  destruct s as [|a [|b [|c t]]]; cbn [delimiter matched].
  - done.
  - rewrite head_line_cons, head_line_nil. by destruct (Ascii.eqb a Str.LF).
  - rewrite !head_line_cons, head_line_nil.
    by destruct (Ascii.eqb a Str.LF), (Ascii.eqb b Str.LF).
  - rewrite !head_line_cons.
    destruct (Ascii.eqb a Str.LF) eqn:Ha.
    { by rewrite (eqb_LF_not_dash a Ha). }
    destruct (Ascii.eqb b Str.LF) eqn:Hb.
    { rewrite (eqb_LF_not_dash b Hb). by destruct (is_dash a). }
    destruct (Ascii.eqb c Str.LF) eqn:Hc.
    { rewrite (eqb_LF_not_dash c Hc). by destruct (is_dash a), (is_dash b). }
    cbn [delimiter_line].
    rewrite (head_line_andb (is_dash a && is_dash b && is_dash c) all_space t).
    rewrite <- ws_then_newline_head.
    by destruct (is_dash a && is_dash b && is_dash c).
Qed.

Lemma terminated_delimiters_cons (l : string) (ls : list string) :
  terminated_delimiters (l :: ls) =
  (if match ls with [] => false | _ => delimiter_line l end then 1 else 0)
  + terminated_delimiters ls.
Proof.
  unfold terminated_delimiters. destruct ls as [|l' ls]; [done|].
  cbn [removelast List.filter]. by destruct (delimiter_line l).
Qed.

Lemma delimiters_lines (bol : bool) (s : string) :
  delimiters bol s =
  (if bol && head_line delimiter_line s then 1 else 0)
  + terminated_delimiters (tail (Str.lines s)).
Proof.
  revert bol. induction s as [|c s IH]; intros bol.
  - cbn. by rewrite andb_false_r.
  - cbn [delimiters]. rewrite delimiter_head, IH. f_equal.
    cbn [Str.lines]. destruct (Ascii.eqb c Str.LF).
    + cbn [tail andb]. unfold head_line.
      pose proof (lines_not_nil s) as Hne.
      destruct (Str.lines s) as [|l ls]; [done|].
      by rewrite terminated_delimiters_cons.
    + destruct (Str.lines s) as [|l ls]; done.
Qed.

Lemma delimiters_eq (s : string) :
  delimiters true s = terminated_delimiters (Str.lines s).
Proof.
  rewrite delimiters_lines. unfold head_line.
  pose proof (lines_not_nil s) as Hne.
  destruct (Str.lines s) as [|l ls]; [done|].
  rewrite terminated_delimiters_cons. cbn [andb tail]. by destruct ls.
Qed.

Lemma delimiters_after_newline (u r : string) (bol : bool) :
  delimiters true r <= delimiters bol (u +:+ String Str.LF r).
Proof.
  revert bol. induction u as [|c u IH]; intros bol.
  - change (EmptyString +:+ String Str.LF r) with (String Str.LF r).
    cbn [delimiters]. rewrite Ascii.eqb_refl. lia.
  - change (String c u +:+ String Str.LF r)
      with (String c (u +:+ String Str.LF r)).
    cbn [delimiters]. specialize (IH (Ascii.eqb c Str.LF)). lia.
Qed.

Lemma ws_then_newline_suffix (t r : string) :
  ws_then_newline t = Some r -> exists u, t = u +:+ String Str.LF r.
Proof.
  revert r. induction t as [|c t IH]; intros r; [done|].
  cbn [ws_then_newline]. destruct (Str.isspace c); [|done].
  destruct (ws_then_newline t) as [r'|] eqn:Ht.
  - intros [= <-]. destruct (IH r' eq_refl) as [u ->].
    by exists (String c u).
  - destruct (Ascii.eqb c Str.LF) eqn:Hc; [|done].
    apply Ascii.eqb_eq in Hc. subst c. intros [= <-]. by exists EmptyString.
Qed.

Lemma delimiter_suffix (s r : string) :
  delimiter s = Some r ->
  exists c u, s = String c (u +:+ String Str.LF r).
Proof.
  destruct s as [|a [|b [|c t]]]; try done. cbn [delimiter].
  destruct (is_dash a && is_dash b && is_dash c); [|done].
  intros [u ->]%ws_then_newline_suffix.
  by exists a, (String b (String c u)).
Qed.

Lemma closing_delimiters (bol : bool) (s : string) (m : string * string) :
  closing bol s = Some m -> 1 <= delimiters bol s.
Proof.
  revert bol m. induction s as [|c s IH]; intros bol m.
  - cbn. destruct bol; done.
  - cbn [closing delimiters].
    destruct bol; cbn [andb].
    + destruct (delimiter (String c s)); cbn [matched]; [lia|].
      destruct (closing (Ascii.eqb c Str.LF) s) as [[g r]|] eqn:Hc; [|done].
      intros _. apply IH in Hc. lia.
    + destruct (closing (Ascii.eqb c Str.LF) s) as [[g r]|] eqn:Hc; [|done].
      intros _. apply IH in Hc. lia.
Qed.

Lemma frontmatter_search_delimiters (bol : bool) (s : string)
    (m : string * string) :
  frontmatter_search bol s = Some m -> 2 <= delimiters bol s.
Proof.
  revert bol m. induction s as [|c s IH]; intros bol m.
  - cbn. destruct bol; done.
  - cbn [frontmatter_search delimiters].
    destruct bol; cbn [andb].
    + destruct (delimiter (String c s)) as [r|] eqn:Hd; cbn [matched].
      * destruct (closing true r) as [m'|] eqn:Hc.
        -- intros _. apply closing_delimiters in Hc.
           destruct (delimiter_suffix _ _ Hd) as (c' & u & [= <- ->]).
           pose proof (delimiters_after_newline u r (Ascii.eqb c Str.LF)). lia.
        -- intros H%IH. lia.
      * intros H%IH. lia.
    + intros H%IH. lia.
Qed.

(** No metadata block is found in a document with fewer than two
    delimiter lines ended by a newline. *)
Lemma frontmatter_search_none (s : string) :
  terminated_delimiters (Str.lines s) <= 1 -> frontmatter_search true s = None.
Proof.
  intros H. destruct (frontmatter_search true s) as [m|] eqn:Hs; [|done].
  apply frontmatter_search_delimiters in Hs. rewrite delimiters_eq in Hs. lia.
Qed.

(** C10. A manifest whose closing [---] line is the last line of the
    document, with no newline after it (so: the lines before the last hold
    one delimiter line, the opening one, and the last line is a delimiter
    line), has no metadata block for the parser: the metadata is empty and
    the instructions are the whole document, trimmed, both delimiter lines
    included. *)
Theorem parse_sop_md_unterminated_closing (w : World) (content : string)
    (before : list string) (last_line : string) :
  Str.lines content = before ++ [last_line] ->
  delimiter_line last_line = true ->
  length (List.filter delimiter_line before) = 1 ->
  parse_sop_md w content = Return (VMap [], Str.strip content).
Proof.
  intros Hlines _ Hone. unfold parse_sop_md.
  rewrite frontmatter_search_none; [done|].
  unfold terminated_delimiters. rewrite Hlines, removelast_last. lia.
Qed.

Lemma parse_sop_md_unterminated_closing_witness :
  parse_sop_md MissingName.w (doc ["---"; "name: x"; "---"])
  = Return (VMap [], doc ["---"; "name: x"; "---"]).
Proof.
  exact (parse_sop_md_unterminated_closing MissingName.w
           (doc ["---"; "name: x"; "---"]) ["---"; "name: x"] "---"
           eq_refl eq_refl eq_refl).
Defined.

(** ** The catalog *)

Lemma sops_dict_snoc (sops : list SOP.t) (sop : SOP.t) :
  sops_dict (sops ++ [sop]) = <[SOP.name sop := sop]> (sops_dict sops).
Proof. unfold sops_dict. by rewrite foldl_app. Qed.


Lemma sops_dict_dom (sops : list SOP.t) :
  dom (sops_dict sops) = list_to_set (SOP.name <$> sops).
Proof.
  induction sops as [|sop sops IH] using rev_ind.
  - unfold sops_dict. cbn. by rewrite dom_empty_L.
  - rewrite sops_dict_snoc, dom_insert_L, IH, fmap_app, list_to_set_app_L.
    cbn [fmap list_fmap list_to_set]. rewrite union_empty_r_L.
    apply (comm_L (∪)).
Qed.











(** ** Discovery *)

(** The call of the constructor in [discover_sops] raises. *)
Lemma SOP_init_has_toolset
    (obj : SOP.rejected ["name"; "path"; "metadata"; "content"; "has_toolset";
                         "resources"] = None -> SOP.t) :
  SOP.init ["name"; "path"; "metadata"; "content"; "has_toolset"; "resources"]
    obj
  = Raise (SOP.unexpected_keyword "has_toolset").
Proof. reflexivity. Qed.

Lemma unexpected_keyword_not_caught (k : string) :
  isinstance (SOP.unexpected_keyword k) SOPValidationError = false
  /\ isinstance (SOP.unexpected_keyword k) OSError = false.
Proof. done. Qed.

(** No manifest gives a procedure: where nothing raises before, the
    constructor does. *)
Lemma load_sop_file_no_procedure (w : World) (validate : bool) (sop_file : Path)
    (loaded : option SOP.t) :
  load_sop_file w validate sop_file = Return loaded -> loaded = None.
Proof.
  unfold load_sop_file.
  destruct (read_manifest w validate sop_file) as [[[[name metadata] ins]|]|e];
    cbn [bind]; [|by intros [= <-]|done].
  destruct (_discover_resources w _); cbn [bind]; [|done].
  destruct (_check_toolset w _ _); cbn [bind]; [|done].
  destruct (resolve w _); cbn [bind]; [|done].
  by rewrite SOP_init_has_toolset.
Qed.

(** The first half of C6, for every manifest: without an identifier, under
    validation, the entry is left out. *)
Lemma missing_name_skipped (w : World) (sops : list SOP.t)
    (sop_file : Path) (content : string) (items : list (string * PyValue))
    (instructions : string) :
  read_text w sop_file = Return content ->
  parse_sop_md w content = Return (VMap items, instructions) ->
  truthy (default VNone (Py.lookup_key "name" items)) = false ->
  discover_one w true sops sop_file = Return sops.
Proof.
  intros Hread Hparse Hname.
  unfold discover_one, load_sop_file, read_manifest.
  rewrite Hread. cbn [bind]. rewrite Hparse. cbn [bind fst snd Py.get].
  by rewrite Hname.
Qed.

(** C6 fails on the code, in its second half. The manifest of the tests
    [test_discover_sops_missing_name_with_validation] and
    [..._without_validation] has no identifier. With validation, discovery
    leaves it out and returns the empty list. Without, the loop body gets
    as far as defaulting the identifier to the name of the directory,
    [test-sop], and then the call of the constructor raises [TypeError],
    which ends discovery: no entry is returned. *)
Lemma missing_name_without_validation_raises :
  discover_sops MissingName.w [MissingName.tmp_path] true = Return []
  /\ read_manifest MissingName.w false MissingName.sop_md
     = Return (Some (VStr "test-sop",
                     SOPMetadata.mk (VStr "test-sop")
                       (VStr "Missing name field") [],
                     "Content."))
  /\ discover_sops MissingName.w [MissingName.tmp_path] false
     = Raise (mkExc TypeError
                "SOP.__init__() got an unexpected keyword argument 'has_toolset'").
Proof. repeat split; vm_compute; reflexivity. Qed.

Lemma for_list_app {A S : Type} (body : S -> A -> Result S)
    (l1 l2 : list A) (s : S) :
  for_list body (l1 ++ l2) s = (s' <- for_list body l1 s ;; for_list body l2 s').
Proof.
  revert s. induction l1 as [|x l1 IH]; intros s; [done|].
  cbn [app for_list]. destruct (body s x); [apply IH | done].
Qed.

(** An exception in the body of a loop ends the loop. *)
Lemma for_list_raise {A S : Type} (body : S -> A -> Result S)
    (before after : list A) (x : A) (s s' : S) (e : Exc) :
  for_list body before s = Return s' ->
  body s' x = Raise e ->
  for_list body (before ++ x :: after) s = Raise e.
Proof.
  intros Hbefore Hx. rewrite for_list_app, Hbefore. cbn. by rewrite Hx.
Qed.

Lemma encountered_raise (w : World) (validate : bool) (directories : list Path)
    (sop_file : Path) (sops : list SOP.t) (e : Exc) :
  encountered w validate directories sop_file sops ->
  discover_one w validate sops sop_file = Raise e ->
  discover_sops w directories validate = Raise e.
Proof.
  intros (before_dirs & after_dirs & sop_dir & home & dir_path & collected
          & before_files & after_files & fin & -> & Hdirs & Hhome & Hres
          & Hex & Hdir & Hglob & Hfiles) Hone.
  unfold discover_sops. apply (for_list_raise _ _ _ _ _ collected); [done|].
  unfold discover_dir. rewrite Hhome. cbn [bind]. rewrite Hres. cbn [bind].
  rewrite Hex. cbn [bind negb]. rewrite Hdir. cbn [bind negb].
  unfold for_each. rewrite Hglob. cbn [yielded].
  by rewrite (for_list_raise _ _ _ _ _ sops e Hfiles Hone).
Qed.

Lemma decode_fails_raise (w : World) (validate : bool) (sops : list SOP.t)
    (sop_file : Path) (e : Exc) :
  decode_fails w sop_file e ->
  discover_one w validate sops sop_file = Raise e.
Proof.
  intros (content & group1 & rest & cause & Hread & Hsearch & Hblock & Hload
          & Hyaml & ->).
  unfold discover_one, load_sop_file, read_manifest. rewrite Hread. cbn [bind].
  unfold parse_sop_md. rewrite Hsearch, Hblock. cbn [negb].
  rewrite Hload, Hyaml. done.
Qed.

Lemma OSError_not_SOPValidationError (e : Exc) :
  isinstance e OSError = true -> isinstance e SOPValidationError = false.
Proof. destruct e as [[] msg]; done. Qed.

(** The handler [except OSError: continue]. *)
Lemma discover_one_OSError (w : World) (validate : bool) (sops : list SOP.t)
    (sop_file : Path) (e : Exc) :
  load_sop_file w validate sop_file = Raise e ->
  isinstance e OSError = true ->
  discover_one w validate sops sop_file = Return sops.
Proof.
  intros Hload Hos. unfold discover_one.
  by rewrite Hload, (OSError_not_SOPValidationError e Hos), Hos.
Qed.

(** C5, as amended. When discovery gets to a manifest whose metadata block
    fails to decode, the whole call raises the [SOPValidationError] and
    returns no catalog. An [OSError] raised while loading an entry affects
    that entry only: it is left out, what was collected is kept and
    discovery goes on with the next manifest. *)
Theorem decode_failure_is_fatal_OSError_is_not :
  (forall (w : World) (validate : bool) (directories : list Path)
          (sop_file : Path) (sops : list SOP.t) (e : Exc),
     encountered w validate directories sop_file sops ->
     decode_fails w sop_file e ->
     discover_sops w directories validate = Raise e
     /\ exc_class e = SOPValidationError)
  /\ (forall (w : World) (validate : bool) (sops : list SOP.t)
             (sop_file : Path) (rest : list Path) (e : Exc),
        load_sop_file w validate sop_file = Raise e ->
        isinstance e OSError = true ->
        discover_one w validate sops sop_file = Return sops
        /\ for_list (discover_one w validate) (sop_file :: rest) sops
           = for_list (discover_one w validate) rest sops).
Proof.
  split.
  - intros w validate directories sop_file sops e Henc Hdec. split.
    + eapply encountered_raise; [done|]. by apply decode_fails_raise.
    + by destruct Hdec as (? & ? & ? & ? & _ & _ & _ & _ & _ & ->).
  - intros w validate sops sop_file rest e Hload Hos.
    pose proof (discover_one_OSError w validate sops sop_file e Hload Hos) as H.
    split; [done|]. cbn [for_list]. by rewrite H.
Qed.

Section FailingManifestsFacts.

Import FailingManifests.

(** Under [/sops], [unreadable] is met first and left out, then
    [broken]. *)
Lemma broken_encountered :
  encountered (w [unreadable; broken]) true [sops] (broken // "SOP.md") [].
Proof.
  exists [], [], sops, sops, sops, [], [unreadable // "SOP.md"], [], None.
  repeat split; vm_compute; reflexivity.
Qed.

Lemma broken_decode_fails :
  decode_fails (w [unreadable; broken]) (broken // "SOP.md") broken_error.
Proof.
  exists broken_text, (doc ["name: [alpha"; ""]), "B.", yaml_error.
  repeat split; vm_compute; reflexivity.
Qed.

Lemma unreadable_load :
  load_sop_file (w [unreadable; broken]) true (unreadable // "SOP.md")
  = Raise denied.
Proof. vm_compute. reflexivity. Qed.

Lemma decode_failure_is_fatal_OSError_is_not_witness :
  (discover_sops (w [unreadable; broken]) [sops] true = Raise broken_error
   /\ exc_class broken_error = SOPValidationError)
  /\ (discover_one (w [unreadable; broken]) true [] (unreadable // "SOP.md")
      = Return []
      /\ for_list (discover_one (w [unreadable; broken]) true)
           [unreadable // "SOP.md"; broken // "SOP.md"] []
         = for_list (discover_one (w [unreadable; broken]) true)
             [broken // "SOP.md"] []).
Proof.
  split.
  - exact (proj1 decode_failure_is_fatal_OSError_is_not
             (w [unreadable; broken]) true
             [sops] (broken // "SOP.md") [] broken_error
             broken_encountered broken_decode_fails).
  - exact (proj2 decode_failure_is_fatal_OSError_is_not
             (w [unreadable; broken]) true
             [] (unreadable // "SOP.md") [broken // "SOP.md"] denied
             unreadable_load eq_refl).
Defined.

(** C5, as stated, fails. The metadata block of [scalar] decodes (to a
    string), and [binary] is never handed to the decoder; each is a
    failure of one entry that is not a decode failure, and each ends the
    whole call: the manifest after it is not looked at, where after
    [unreadable] it is. *)
Lemma other_failures_abort_discovery :
  safe_load (w [scalar; broken]) "just a string" = Return (VStr "just a string")
  /\ discover_sops (w [scalar; broken]) [sops] true
     = Raise (mkExc AttributeError "'str' object has no attribute 'get'")
  /\ discover_sops (w [binary; broken]) [sops] true = Raise not_utf8
  /\ discover_sops (w [unreadable; broken]) [sops] true = Raise broken_error.
Proof. repeat split; vm_compute; reflexivity. Qed.

End FailingManifestsFacts.




Section LockedResourceFacts.

Import LockedResource.



End LockedResourceFacts.

(** ** The path safety guard *)

(** C2, as amended. [_is_safe_path] returns [False] when resolving either
    path raises a [ValueError], and when both resolve it returns whether
    the resolved target is the resolved base or lies below it; any other
    exception raised while resolving is raised to the caller. *)
Theorem _is_safe_path_outcome (w : World) (base_path target_path : Path) :
  _is_safe_path w base_path target_path =
  match resolve w target_path with
  | Raise e => if isinstance e ValueError then Return false else Raise e
  | Return target =>
      match resolve w base_path with
      | Raise e => if isinstance e ValueError then Return false else Raise e
      | Return base =>
          Return (bool_decide (absolute target = absolute base)
                  && matched (PurePath.strip_prefix (parts base) (parts target)))
      end
  end.
Proof.
  unfold _is_safe_path.
  destruct (resolve w target_path) as [target|e]; cbn [bind]; [|done].
  destruct (resolve w base_path) as [base|e]; cbn [bind]; [|done].
  unfold PurePath.relative_to. case_bool_decide; [|done].
  by destruct (PurePath.strip_prefix (parts base) (parts target)).
Qed.

(** C2, as stated, fails: on a symbolic link onto itself [resolve] raises
    [RuntimeError], and so does [_is_safe_path]; and where the working
    directory is gone, [_is_safe_path] raises [FileNotFoundError] for a
    relative path. *)
Lemma _is_safe_path_raises :
  _is_safe_path SymlinkLoop.w LockedResource.alpha SymlinkLoop.loop
  = Raise SymlinkLoop.symlink_loop
  /\ _is_safe_path RemovedCwd.w RemovedCwd.here RemovedCwd.notes
     = Raise RemovedCwd.no_cwd.
Proof. split; vm_compute; reflexivity. Qed.

(** ** The tools *)



(** Reading a resource that is found calls [_is_safe_path] on it before
    anything is read. *)
Lemma read_sop_resource_events (w : World) (self : SOPsToolset)
    (sop_name resource_name : string) (sop : SOP.t) (resource : SOPResource.t) :
  _sops self !! sop_name = Some sop ->
  List.find (fun r => String.eqb (SOPResource.name r) resource_name)
    (SOP.resources sop) = Some resource ->
  exists rest,
    fst (read_sop_resource w self sop_name resource_name)
    = SafePathChecked (SOP.path sop) (SOPResource.path resource) :: rest
    /\ (rest = [] \/
        (rest = [TextRead (SOPResource.path resource)]
         /\ _is_safe_path w (SOP.path sop) (SOPResource.path resource)
            = Return true)).
Proof.
  intros Hsop Hres. unfold read_sop_resource, perform. rewrite Hsop, Hres.
  destruct (_is_safe_path w (SOP.path sop) (SOPResource.path resource))
    as [[]|e]; cbn [tbind negb tret fst app]; eauto.
Qed.


(** An unknown resource name: the answer is an error text that ends with
    the names of the procedure's resources. *)
Lemma read_sop_resource_unknown_resource (w : World) (self : SOPsToolset)
    (sop_name resource_name : string) (sop : SOP.t) :
  _sops self !! sop_name = Some sop ->
  List.find (fun r => String.eqb (SOPResource.name r) resource_name)
    (SOP.resources sop) = None ->
  read_sop_resource w self sop_name resource_name
  = ([], Return ("Error: Resource '" +:+ resource_name +:+ "' not found in SOP '"
                 +:+ sop_name +:+ "'. " +:+ "Available resources: "
                 +:+ Py.repr_list (List.map SOPResource.name (SOP.resources sop)))).
Proof.
  intros Hsop Hres. unfold read_sop_resource. by rewrite Hsop, Hres.
Qed.

(** An unknown identifier: the answer is an error text, the same whatever
    the catalog holds. *)
Lemma read_sop_resource_unknown_sop (w : World) (self : SOPsToolset)
    (sop_name resource_name : string) :
  _sops self !! sop_name = None ->
  read_sop_resource w self sop_name resource_name
  = ([], Return ("Error: SOP '" +:+ sop_name +:+ "' not found.")).
Proof. intros Hsop. unfold read_sop_resource. by rewrite Hsop. Qed.

(** C4 fails on the code. The toolset built over no directory has an empty
    catalog; for the unknown identifier [deploy], [read_sop_resource]
    answers with an error text that says nothing of the identifiers
    available, where [activate_sop] says there are none. With [alpha] and
    [deploy] in the catalog and the unknown identifier [beta], the text of
    [read_sop_resource] is the same but for the identifier asked for and
    names neither, where [activate_sop] lists both. *)
Lemma read_sop_resource_lists_no_identifiers :
  init FilledCatalog.w [] true true = Return FilledCatalog.empty
  /\ read_sop_resource FilledCatalog.w FilledCatalog.empty "deploy" "FORMS.md"
     = ([], Return "Error: SOP 'deploy' not found.")
  /\ activate_sop FilledCatalog.w FilledCatalog.empty FilledCatalog.ctx "deploy"
     = ([], Return "Error: SOP 'deploy' not found. Available SOPs: none")
  /\ dom (_sops FilledCatalog.toolset) = {["alpha"; "deploy"]}
  /\ read_sop_resource FilledCatalog.w FilledCatalog.toolset "beta" "FORMS.md"
     = ([], Return "Error: SOP 'beta' not found.")
  /\ Str.contains "alpha" "Error: SOP 'beta' not found." = false
  /\ Str.contains "deploy" "Error: SOP 'beta' not found." = false
  /\ activate_sop FilledCatalog.w FilledCatalog.toolset FilledCatalog.ctx "beta"
     = ([], Return "Error: SOP 'beta' not found. Available SOPs: alpha, deploy").
Proof.
  split; [vm_compute; reflexivity|].
  split; [vm_compute; reflexivity|].
  split; [vm_compute; reflexivity|].
  split; [|repeat split; vm_compute; reflexivity].
  unfold FilledCatalog.toolset. cbn [_sops].
  rewrite sops_dict_dom. cbn. by rewrite union_empty_r_L.
Qed.

(** ** The metadata validator *)

(** C8 fails on the code. The identifier [abc] followed by a newline has
    four characters, and the newline is none of [[a-z0-9-]]; [$] matches
    before it all the same, and the validator returns no warning at all. *)
Lemma trailing_newline_gets_no_format_warning :
  String.length newline_name <= 64
  /\ only_name_chars newline_name = false
  /\ _validate_sop_metadata (VMap [("name", VStr newline_name)]) EmptyString
     = Return [].
Proof. repeat split; vm_compute; reflexivity || lia. Qed.

Lemma LF_not_name_char : name_char Str.LF = false.
Proof. reflexivity. Qed.

Lemma after_name_chars_only (t rest : string) :
  only_name_chars t = true ->
  after_name_chars (t +:+ rest) = after_name_chars rest.
Proof.
  induction t as [|c t IH]; [done|].
  cbn [only_name_chars]. intros [Hc Ht]%andb_prop.
  change (String c t +:+ rest) with (String c (t +:+ rest)).
  cbn [after_name_chars]. rewrite Hc. by apply IH.
Qed.

Lemma after_name_chars_split (s : string) :
  exists t, s = t +:+ after_name_chars s /\ only_name_chars t = true.
Proof.
  induction s as [|c s (t & Hs & Ht)]; [by exists EmptyString|].
  cbn [after_name_chars]. destruct (name_char c) eqn:Hc.
  - exists (String c t). split.
    + change (String c t +:+ after_name_chars s)
        with (String c (t +:+ after_name_chars s)). by rewrite <- Hs.
    + cbn [only_name_chars]. by rewrite Hc.
  - by exists EmptyString.
Qed.

Lemma append_empty_r (s : string) : s +:+ EmptyString = s.
Proof.
  induction s as [|c s IH]; [done|].
  change (String c s +:+ EmptyString) with (String c (s +:+ EmptyString)).
  by rewrite IH.
Qed.

(** What [SOP_NAME_PATTERN] matches: a non-empty run of [[a-z0-9-]], alone
    or followed by one newline. *)
Lemma SOP_NAME_PATTERN_match_spec (s : string) :
  SOP_NAME_PATTERN_match s = true <->
  exists t, t <> EmptyString /\ only_name_chars t = true
            /\ (s = t \/ s = t +:+ Str.nl).
Proof.
  split.
  - destruct s as [|c s]; [done|]. cbn [SOP_NAME_PATTERN_match].
    intros [Hc Hr]%andb_prop.
    destruct (after_name_chars_split s) as (t & Hs & Ht).
    exists (String c t). split; [done|]. split.
    { cbn [only_name_chars]. by rewrite Hc. }
    apply orb_prop in Hr as [Hr%String.eqb_eq | Hr%String.eqb_eq];
      rewrite Hr in Hs.
    + left. rewrite append_empty_r in Hs. by rewrite Hs.
    + right. by rewrite Hs at 1.
  - intros (t & Hne & Ht & Hs). destruct t as [|c t]; [done|].
    cbn [only_name_chars] in Ht. apply andb_prop in Ht as [Hc Ht].
    destruct Hs as [-> | ->].
    + cbn [SOP_NAME_PATTERN_match]. rewrite Hc.
      rewrite <- (append_empty_r t), (after_name_chars_only t _ Ht). done.
    + change (String c t +:+ Str.nl) with (String c (t +:+ Str.nl)).
      cbn [SOP_NAME_PATTERN_match]. rewrite Hc.
      rewrite (after_name_chars_only t _ Ht). done.
Qed.

(** Where C8 holds: an identifier of at most 64 characters that is not
    made of [[a-z0-9-]] only and does not end in a newline gets the format
    warning (the description being absent or a string). *)
Lemma format_warning_given (items : list (string * PyValue))
    (name instructions : string) :
  Py.lookup_key "name" items = Some (VStr name) ->
  (Py.lookup_key "description" items = None
   \/ exists d, Py.lookup_key "description" items = Some (VStr d)) ->
  String.length name <= 64 ->
  only_name_chars name = false ->
  (forall t, name <> t +:+ Str.nl) ->
  exists warnings,
    _validate_sop_metadata (VMap items) instructions = Return warnings
    /\ format_warning (VStr name) ∈ warnings.
Proof.
  intros Hname Hdesc Hlen Hchars Hnl.
  assert (SOP_NAME_PATTERN_match name = false) as Hmatch.
  { destruct (SOP_NAME_PATTERN_match name) eqn:Hm; [|done].
    apply SOP_NAME_PATTERN_match_spec in Hm as (t & _ & Ht & [-> | ->]).
    - congruence.
    - by destruct (Hnl t). }
  assert (truthy (VStr name) = true) as Htruthy.
  { destruct name; [done|done]. }
  assert ((64 <? String.length name) = false) as Hlt.
  { apply Nat.ltb_ge. lia. }
  unfold _validate_sop_metadata. cbn [Py.get bind]. rewrite Hname.
  cbn [default from_option id]. rewrite Htruthy. cbn [Py.len bind].
  rewrite Hlt. cbn [pattern_match bind]. rewrite Hmatch.
  cbn [negb RESERVED_WORDS for_list Py.contains bind app].
  destruct Hdesc as [-> | [d ->]];
    cbn [default from_option id truthy Str.nonempty].
  all: repeat first
         [ progress cbn [bind Py.len]
         | match goal with
           | |- context [if ?b then _ else _] => destruct b
           end ];
       eexists; (split; [reflexivity|]);
       apply list_elem_of_In; cbn [app In]; auto.
Qed.

(** * Further properties *)

(** ** The manifest parser, continued *)

Lemma dash_not_LF (c : ascii) : is_dash c = true -> Ascii.eqb c Str.LF = false.
Proof. unfold is_dash. intros H%Ascii.eqb_eq. by subst. Qed.

Lemma isspace_not_dash (c : ascii) : Str.isspace c = true -> is_dash c = false.
Proof.
  intros Hs. destruct (is_dash c) eqn:Hd; [|done].
  unfold is_dash in Hd. apply Ascii.eqb_eq in Hd. subst c. done.
Qed.

Lemma delimiter_space (c : ascii) (s : string) :
  Str.isspace c = true -> delimiter (String c s) = None.
Proof.
  intros Hs%isspace_not_dash. destruct s as [|b [|d t]]; cbn [delimiter]; try done.
  by rewrite Hs.
Qed.

Lemma ws_then_newline_delimiters (t r : string) (bol : bool) :
  ws_then_newline t = Some r -> delimiters bol t = delimiters true r.
Proof.
  revert r bol. induction t as [|c t IH]; intros r bol; [done|].
  cbn [ws_then_newline delimiters].
  destruct (Str.isspace c) eqn:Hs; [|done].
  rewrite (delimiter_space c t Hs). cbn [matched]. rewrite andb_false_r.
  destruct (ws_then_newline t) as [r'|] eqn:Ht.
  - intros [= <-]. by rewrite (IH r' _ eq_refl).
  - destruct (Ascii.eqb c Str.LF); [|done]. by intros [= <-].
Qed.

Lemma delimiter_delimiters (s r : string) :
  delimiter s = Some r -> delimiters true s = S (delimiters true r).
Proof.
  intros Hd. destruct s as [|a [|b [|c t]]]; try done.
  cbn [delimiters]. rewrite Hd. cbn [delimiter] in Hd.
  destruct (is_dash a) eqn:Ha; [|done].
  destruct (is_dash b) eqn:Hb; [|done].
  destruct (is_dash c) eqn:Hc; [|done]. cbn [andb] in Hd.
  cbn [matched andb].
  rewrite (dash_not_LF a Ha), (dash_not_LF b Hb), !andb_false_l.
  by rewrite (ws_then_newline_delimiters t r _ Hd).
Qed.

Lemma closing_complete (bol : bool) (s : string) :
  1 <= delimiters bol s -> is_Some (closing bol s).
Proof.
  revert bol. induction s as [|c s IH]; intros bol.
  - cbn. destruct bol; cbn; lia.
  - cbn [delimiters closing]. destruct bol; cbn [andb].
    + destruct (delimiter (String c s)); cbn [matched]; [eauto|].
      intros H. destruct (IH (Ascii.eqb c Str.LF)) as [[g r] ->]; [lia|eauto].
    + intros H. destruct (IH (Ascii.eqb c Str.LF)) as [[g r] ->]; [lia|eauto].
Qed.

Lemma frontmatter_search_complete (bol : bool) (s : string) :
  2 <= delimiters bol s -> is_Some (frontmatter_search bol s).
Proof.
  revert bol. induction s as [|c s IH]; intros bol.
  - cbn. destruct bol; cbn; lia.
  - cbn [frontmatter_search]. destruct bol.
    + destruct (delimiter (String c s)) as [r|] eqn:Hd.
      * rewrite (delimiter_delimiters _ _ Hd). intros H.
        destruct (closing_complete true r) as [m ->]; [lia|eauto].
      * cbn [delimiters]. rewrite Hd. cbn [matched andb]. intros H.
        destruct (IH (Ascii.eqb c Str.LF)) as [m ->]; [lia|eauto].
    + cbn [delimiters andb]. intros H.
      destruct (IH (Ascii.eqb c Str.LF)) as [m ->]; [lia|eauto].
Qed.

(** X1. [parse_sop_md] finds a metadata block exactly in the documents
    that have at least two delimiter lines ended by a newline; every other
    document is instructions as a whole: the metadata is empty and the
    instructions are the trimmed document. *)
Theorem parse_sop_md_block_found_iff (content : string) :
  (is_Some (frontmatter_search true content)
   <-> 2 <= terminated_delimiters (Str.lines content))
  /\ (terminated_delimiters (Str.lines content) <= 1 ->
      forall w : World,
        parse_sop_md w content = Return (VMap [], Str.strip content)).
Proof.
  split; [split|].
  - intros [m Hm]. apply frontmatter_search_delimiters in Hm.
    by rewrite delimiters_eq in Hm.
  - intros H. apply frontmatter_search_complete. by rewrite delimiters_eq.
  - intros H w. unfold parse_sop_md. by rewrite frontmatter_search_none.
Qed.

Lemma append_cons (c : ascii) (s t : string) :
  String c s +:+ t = String c (s +:+ t).
Proof. reflexivity. Qed.

Lemma append_nil_l (s : string) : EmptyString +:+ s = s.
Proof. reflexivity. Qed.

Lemma append_assoc (a b c : string) : (a +:+ b) +:+ c = a +:+ (b +:+ c).
Proof.
  induction a as [|x a IH]; [done|]. by rewrite !append_cons, IH.
Qed.

Lemma all_space_app (a b : string) :
  all_space (a +:+ b) = all_space a && all_space b.
Proof.
  induction a as [|x a IH]; [done|].
  rewrite append_cons. cbn [all_space]. by rewrite IH, andb_assoc.
Qed.

Lemma ws_then_newline_app (u x : string) :
  all_space u = true ->
  ws_then_newline (u +:+ String Str.LF x) = Some (skip_blank x).
Proof.
  unfold skip_blank. induction u as [|c u IH]; intros Hu.
  - rewrite append_nil_l. cbn [ws_then_newline].
    change (Str.isspace Str.LF) with true. cbn iota. rewrite Ascii.eqb_refl.
    by destruct (ws_then_newline x).
  - cbn [all_space] in Hu. apply andb_prop in Hu as [Hc Hu].
    rewrite append_cons. cbn [ws_then_newline]. by rewrite Hc, (IH Hu).
Qed.

(** What [\s*\n] consumes is whitespace that ends in a newline. *)
Lemma ws_then_newline_split (t r : string) :
  ws_then_newline t = Some r ->
  exists v, t = (v +:+ Str.nl) +:+ r /\ all_space v = true.
Proof.
  revert r. induction t as [|c t IH]; intros r; [done|].
  cbn [ws_then_newline]. destruct (Str.isspace c) eqn:Hc; [|done].
  destruct (ws_then_newline t) as [r'|] eqn:Ht.
  - intros [= <-]. destruct (IH r' eq_refl) as (v & -> & Hv).
    exists (String c v). split; [done|]. cbn [all_space]. by rewrite Hc.
  - destruct (Ascii.eqb c Str.LF) eqn:Hlf; [|done].
    apply Ascii.eqb_eq in Hlf. subst c. intros [= <-]. by exists EmptyString.
Qed.

Lemma skip_blank_split (x : string) :
  exists v, x = v +:+ skip_blank x /\ all_space v = true
            /\ (v = EmptyString \/ exists v0, v = v0 +:+ Str.nl).
Proof.
  unfold skip_blank. destruct (ws_then_newline x) as [r|] eqn:Hx.
  - destruct (ws_then_newline_split x r Hx) as (v & -> & Hv).
    exists (v +:+ Str.nl). cbn [default from_option id]. split; [done|].
    split; [|eauto]. rewrite all_space_app, Hv. done.
  - exists EmptyString. cbn. eauto.
Qed.

(** Whitespace at the front of a text ends before its first dash. *)
Lemma space_prefix_split (v r a b : string) (d : ascii) :
  v +:+ r = a +:+ String d b ->
  all_space v = true ->
  Str.isspace d = false ->
  exists y, a = v +:+ y /\ r = y +:+ String d b.
Proof.
  revert a. induction v as [|c v IH]; intros a Heq Hv Hd.
  - exists a. by rewrite append_nil_l in Heq.
  - cbn [all_space] in Hv. apply andb_prop in Hv as [Hc Hv].
    rewrite append_cons in Heq. destruct a as [|x a].
    + rewrite append_nil_l in Heq. injection Heq as -> _. congruence.
    + rewrite append_cons in Heq. injection Heq as -> Heq.
      destruct (IH a Heq Hv Hd) as (y & -> & ->). by exists y.
Qed.

Lemma lines_app_newline (a b : string) :
  Str.lines (a +:+ String Str.LF b) = Str.lines a ++ Str.lines b.
Proof.
  induction a as [|c a IH].
  - rewrite append_nil_l. cbn [Str.lines]. by rewrite Ascii.eqb_refl.
  - rewrite append_cons. cbn [Str.lines]. rewrite IH.
    pose proof (lines_not_nil a).
    destruct (Ascii.eqb c Str.LF), (Str.lines a); done.
Qed.

Lemma closing_here (s r : string) :
  delimiter s = Some r -> closing true s = Some (EmptyString, r).
Proof. intros H. destruct s; cbn [closing]; by rewrite H. Qed.

Lemma head_line_app (p : string -> bool) (g0 x : string) :
  head_line p ((g0 +:+ Str.nl) +:+ x) = head_line p (g0 +:+ Str.nl).
Proof.
  revert p. induction g0 as [|c g0 IH]; intros p.
  - rewrite !append_nil_l. unfold Str.nl. rewrite append_cons.
    rewrite !head_line_cons. by rewrite Ascii.eqb_refl.
  - rewrite !append_cons, !head_line_cons. by rewrite IH.
Qed.

Lemma head_line_hd (p : string -> bool) (g0 : string) :
  head_line p (g0 +:+ Str.nl) = p (hd EmptyString (Str.lines (g0 +:+ Str.nl))).
Proof.
  unfold head_line, Str.nl. rewrite lines_app_newline.
  pose proof (lines_not_nil g0). destruct (Str.lines g0) as [|l ls]; [done|].
  cbn. by destruct ls.
Qed.

(** The lazy group runs to the first delimiter: over a text [g] that ends
    its last line and holds no delimiter line, and up to the delimiter
    that follows. *)
Lemma closing_app (g delim r : string) (bol : bool) :
  delimiter delim = Some r ->
  (g = EmptyString /\ bol = true \/ exists g0, g = g0 +:+ Str.nl) ->
  no_delimiter_line (if bol then Str.lines g else tail (Str.lines g)) = true ->
  closing bol (g +:+ delim) = Some (g, r).
Proof.
  intros Hd. revert bol. induction g as [|c g IH]; intros bol Hend Hno.
  - destruct Hend as [[_ ->] | [g0 Hg0]].
    + rewrite append_nil_l. by apply closing_here.
    + by destruct g0.
  - destruct Hend as [[? _] | [g0 Hg0]]; [done|].
    rewrite append_cons. cbn [closing].
    assert ((if bol then delimiter (String c (g +:+ delim)) else None) = None)
      as ->.
    { destruct bol; [|done].
      destruct (delimiter (String c (g +:+ delim))) eqn:Hm; [|done].
      pose proof (delimiter_head (String c (g +:+ delim))) as Hh.
      rewrite Hm, <- append_cons, Hg0, head_line_app, head_line_hd in Hh.
      rewrite <- Hg0 in Hh. cbn [matched] in Hh.
      pose proof (lines_not_nil (String c g)).
      destruct (Str.lines (String c g)) as [|l ls]; [done|].
      cbn [no_delimiter_line forallb hd] in Hno, Hh.
      rewrite <- Hh in Hno. done. }
    rewrite (IH (Ascii.eqb c Str.LF)); [done| |].
    + destruct g0 as [|x g0].
      * left. rewrite append_nil_l in Hg0. unfold Str.nl in Hg0.
        injection Hg0 as -> ->. by rewrite Ascii.eqb_refl.
      * right. rewrite append_cons in Hg0. injection Hg0 as _ ->. eauto.
    + cbn [Str.lines] in Hno. pose proof (lines_not_nil g).
      destruct (Ascii.eqb c Str.LF), bol, (Str.lines g) as [|l ls];
        cbn [no_delimiter_line forallb tail] in *; try done.
      all: by apply andb_prop in Hno as [_ ?].
Qed.

Lemma lstrip_space_prefix (v x : string) :
  all_space v = true -> Str.lstrip (v +:+ x) = Str.lstrip x.
Proof.
  induction v as [|c v IH]; [done|]. cbn [all_space].
  intros [Hc Hv]%andb_prop. rewrite append_cons. cbn [Str.lstrip].
  rewrite Hc. by apply IH.
Qed.

Lemma lstrip_all_space (x : string) :
  all_space x = true -> Str.lstrip x = EmptyString.
Proof.
  intros H. rewrite <- (append_empty_r x), (lstrip_space_prefix x _ H). done.
Qed.

Lemma lstrip_app (x y : string) :
  all_space x = false -> Str.lstrip (x +:+ y) = Str.lstrip x +:+ y.
Proof.
  induction x as [|c x IH]; [done|]. cbn [all_space]. rewrite append_cons.
  cbn [Str.lstrip]. destruct (Str.isspace c); [apply IH | done].
Qed.

Lemma rstrip_all_space (u : string) :
  all_space u = true -> Str.rstrip u = EmptyString.
Proof.
  induction u as [|c u IH]; [done|]. cbn [all_space].
  intros [Hc Hu]%andb_prop. cbn [Str.rstrip]. by rewrite (IH Hu), Hc.
Qed.

Lemma rstrip_space_suffix (z u : string) :
  all_space u = true -> Str.rstrip (z +:+ u) = Str.rstrip z.
Proof.
  intros Hu. induction z as [|c z IH].
  - rewrite append_nil_l. by apply rstrip_all_space.
  - rewrite append_cons. cbn [Str.rstrip]. by rewrite IH.
Qed.

(** Whitespace around a text does not change what [strip] gives. *)
Lemma strip_space_prefix (v x : string) :
  all_space v = true -> Str.strip (v +:+ x) = Str.strip x.
Proof. intros H. unfold Str.strip. by rewrite lstrip_space_prefix. Qed.

Lemma strip_space_suffix (x u : string) :
  all_space u = true -> Str.strip (x +:+ u) = Str.strip x.
Proof.
  intros Hu. unfold Str.strip. destruct (all_space x) eqn:Hx.
  - rewrite !lstrip_all_space; [done..|]. by rewrite all_space_app, Hx, Hu.
  - by rewrite lstrip_app, rstrip_space_suffix.
Qed.

Lemma strip_skip_blank (x : string) : Str.strip (skip_blank x) = Str.strip x.
Proof.
  destruct (skip_blank_split x) as (v & Hx & Hv & _).
  rewrite Hx at 2. by rewrite strip_space_prefix.
Qed.

Lemma newline_ended_suffix (a v y : string) :
  a +:+ Str.nl = v +:+ y ->
  y = EmptyString \/ exists y0, y = y0 +:+ Str.nl.
Proof.
  revert a. induction v as [|c v IH]; intros a Heq.
  - rewrite append_nil_l in Heq. eauto.
  - rewrite append_cons in Heq. destruct a as [|x a].
    + rewrite append_nil_l in Heq. unfold Str.nl in Heq.
      injection Heq as _ Heq. left. destruct v; [|done].
      by rewrite append_nil_l in Heq.
    + rewrite append_cons in Heq. injection Heq as _ Heq. by eapply IH.
Qed.

Lemma no_delimiter_line_app (l1 l2 : list string) :
  no_delimiter_line (l1 ++ l2) = no_delimiter_line l1 && no_delimiter_line l2.
Proof. unfold no_delimiter_line. apply forallb_app. Qed.

Lemma frontmatter_search_here (s r : string) (m : string * string) :
  delimiter s = Some r ->
  closing true r = Some m ->
  frontmatter_search true s = Some m.
Proof. intros Hd Hc. destruct s; cbn [frontmatter_search]; by rewrite Hd, Hc. Qed.

Lemma delimiter_dashes (u x : string) :
  all_space u = true ->
  delimiter ("---" +:+ u +:+ Str.nl +:+ x) = Some (skip_blank x).
Proof.
  intros Hu. rewrite <- (ws_then_newline_app u x Hu). reflexivity.
Qed.

(** In a manifest written the usual way, the group the pattern captures
    is the metadata block up to surrounding whitespace, and what follows
    the match is the body without its leading blank lines. *)
Lemma frontmatter_search_manifest (yaml body : string) :
  no_delimiter_line (Str.lines yaml) = true ->
  exists group1,
    frontmatter_search true (manifest yaml body)
    = Some (group1, skip_blank body)
    /\ Str.strip group1 = Str.strip yaml.
Proof.
  intros Hno. unfold manifest.
  set (delim := "---" +:+ Str.nl +:+ body).
  assert (delimiter delim = Some (skip_blank body)) as Hdelim.
  { exact (delimiter_dashes EmptyString body eq_refl). }
  destruct (skip_blank_split (yaml +:+ Str.nl +:+ delim))
    as (v & Hsplit & Hv & Hvend).
  assert (yaml +:+ Str.nl +:+ delim
          = (yaml +:+ Str.nl) +:+ String "-" ("--" +:+ Str.nl +:+ body))
    as Hshape by (by rewrite append_assoc).
  rewrite Hshape in Hsplit at 1. symmetry in Hsplit.
  destruct (space_prefix_split _ _ _ _ _ Hsplit Hv eq_refl) as (y & Hy & Hr).
  change (String "-" ("--" +:+ Str.nl +:+ body)) with delim in Hr.
  exists y. split.
  - apply (frontmatter_search_here _ (skip_blank (yaml +:+ Str.nl +:+ delim))).
    { exact (delimiter_dashes EmptyString _ eq_refl). }
    rewrite Hr. apply closing_app; [done| |].
    + destruct (newline_ended_suffix _ _ _ Hy); eauto.
    + assert (no_delimiter_line (Str.lines (yaml +:+ Str.nl)) = true) as Hall.
      { unfold Str.nl. by rewrite lines_app_newline, no_delimiter_line_app, Hno. }
      rewrite Hy in Hall. destruct Hvend as [-> | [v0 ->]]; [done|].
      unfold Str.nl in Hall.
      rewrite append_assoc, append_cons, append_nil_l in Hall.
      rewrite lines_app_newline, no_delimiter_line_app in Hall.
      by apply andb_prop in Hall as [_ ?].
  - rewrite <- (strip_space_prefix v y Hv), <- Hy.
    by apply strip_space_suffix.
Qed.

(** X2. A manifest written the usual way, with no delimiter line inside
    its metadata block, parses back into its two parts: the metadata is
    what [yaml.safe_load] makes of the trimmed block (empty when the block
    is blank or decodes to null, [SOPValidationError] when the decoder
    raises a [YAMLError]), and the instructions are the trimmed body. *)
Theorem parse_sop_md_manifest (w : World) (yaml body : string) :
  no_delimiter_line (Str.lines yaml) = true ->
  parse_sop_md w (manifest yaml body)
  = if Str.nonempty (Str.strip yaml)
    then decoded w (Str.strip yaml) (Str.strip body)
    else Return (VMap [], Str.strip body).
Proof.
  intros Hno.
  destruct (frontmatter_search_manifest yaml body Hno) as (g & Hsearch & Hg).
  unfold parse_sop_md, decoded.
  rewrite Hsearch, Hg, strip_skip_blank.
  by destruct (Str.nonempty (Str.strip yaml)).
Qed.

Lemma parse_sop_md_manifest_witness :
  parse_sop_md MissingName.w
    (manifest "description: Missing name field"
       (doc [""; "Content."; ""]))
  = Return (VMap [("description", VStr "Missing name field")], "Content.").
Proof.
  exact (parse_sop_md_manifest MissingName.w "description: Missing name field"
           (doc [""; "Content."; ""]) eq_refl).
Defined.

Lemma rstrip_idempotent (s : string) : Str.rstrip (Str.rstrip s) = Str.rstrip s.
Proof.
  induction s as [|c s IH]; [done|]. cbn [Str.rstrip].
  destruct (Str.rstrip s) as [|x r] eqn:Hr.
  - destruct (Str.isspace c) eqn:Hc; [done|]. cbn [Str.rstrip]. by rewrite Hc.
  - cbn [Str.rstrip]. cbn [Str.rstrip] in IH.
    destruct (Str.rstrip r) as [|y r'].
    + destruct (Str.isspace x); [done|]. by injection IH as <-.
    + by rewrite IH.
Qed.

Lemma lstrip_rstrip_lstrip (s : string) :
  Str.lstrip (Str.rstrip (Str.lstrip s)) = Str.rstrip (Str.lstrip s).
Proof.
  induction s as [|c s IH]; [done|]. cbn [Str.lstrip].
  destruct (Str.isspace c) eqn:Hc; [done|]. cbn [Str.rstrip].
  destruct (Str.rstrip s); rewrite ?Hc; cbn [Str.lstrip]; by rewrite Hc.
Qed.

Lemma strip_idempotent (s : string) : Str.strip (Str.strip s) = Str.strip s.
Proof.
  unfold Str.strip. by rewrite lstrip_rstrip_lstrip, rstrip_idempotent.
Qed.

(** X3. What [parse_sop_md] returns, whatever the document: instructions
    with no whitespace left at either end, and metadata that is never
    [None]; and what it raises is a [SOPValidationError], or an exception
    of [yaml.safe_load] that is not a [YAMLError], unchanged. *)
Theorem parse_sop_md_result (w : World) (content : string) :
  match parse_sop_md w content with
  | Return (frontmatter, instructions) =>
      Str.strip instructions = instructions /\ frontmatter <> VNone
  | Raise e =>
      exc_class e = SOPValidationError
      \/ exists block, safe_load w block = Raise e
                       /\ isinstance e YAMLError = false
  end.
Proof.
  unfold parse_sop_md.
  destruct (frontmatter_search true content) as [[g r]|].
  - destruct (Str.nonempty (Str.strip g)); cbn [negb].
    + destruct (safe_load w (Str.strip g)) as [fm|e] eqn:Hload.
      * split; [apply strip_idempotent|]. by destruct fm.
      * destruct (isinstance e YAMLError) eqn:He; [by left|]. right. eauto.
    + split; [apply strip_idempotent | done].
  - split; [apply strip_idempotent | done].
Qed.

(** ** The metadata validator, continued *)

Lemma ends_in_newline_app (t : string) : ends_in_newline (t +:+ Str.nl) = true.
Proof.
  induction t as [|c t IH]; [done|]. rewrite append_cons.
  cbn [ends_in_newline]. rewrite IH. destruct t; [done|].
  by rewrite append_cons.
Qed.

Lemma not_newline_ended (s : string) :
  ends_in_newline s = false -> forall t, s <> t +:+ Str.nl.
Proof. intros Hs t ->. by rewrite ends_in_newline_app in Hs. Qed.

Lemma only_name_chars_match (name : string) :
  name <> EmptyString -> only_name_chars name = true ->
  SOP_NAME_PATTERN_match name = true.
Proof.
  intros Hne Hchars. apply SOP_NAME_PATTERN_match_spec. exists name. eauto.
Qed.

(** X5. Metadata that keeps the rules gets no warning: an identifier that
    is not empty, made of [[a-z0-9-]] only, at most 64 characters long and
    free of the reserved words, a description of at most 1024 characters,
    and instructions of at most 500 lines. *)
Theorem valid_metadata_no_warnings (items : list (string * PyValue))
    (name description instructions : string) :
  Py.lookup_key "name" items = Some (VStr name) ->
  Py.lookup_key "description" items = Some (VStr description) ->
  name <> EmptyString ->
  only_name_chars name = true ->
  String.length name <= 64 ->
  no_reserved_word name = true ->
  String.length description <= 1024 ->
  length (Str.lines instructions) <= 500 ->
  _validate_sop_metadata (VMap items) instructions = Return [].
Proof.
  intros Hname Hdesc Hne Hchars Hlen Hres Hdlen Hlines.
  pose proof (only_name_chars_match name Hne Hchars) as Hmatch.
  assert (truthy (VStr name) = true) as Htruthy by (by destruct name).
  assert ((64 <? String.length name) = false) as Hlt by (apply Nat.ltb_ge; lia).
  assert ((1024 <? String.length description) = false) as Hdlt
    by (apply Nat.ltb_ge; lia).
  assert ((500 <? length (Str.lines instructions)) = false) as Hllt
    by (apply Nat.ltb_ge; lia).
  unfold no_reserved_word in Hres. cbn [RESERVED_WORDS forallb] in Hres.
  apply andb_prop in Hres as [Ha [Hc _]%andb_prop].
  apply negb_true_iff in Ha, Hc.
  unfold _validate_sop_metadata. cbn [Py.get bind]. rewrite Hname, Hdesc.
  cbn [default from_option id]. rewrite Htruthy. cbn [Py.len bind].
  rewrite Hlt. cbn [pattern_match bind]. rewrite Hmatch.
  cbn [negb RESERVED_WORDS for_list Py.contains bind]. rewrite Ha, Hc.
  cbn [bind]. destruct (truthy (VStr description)); cbn [bind Py.len];
    by rewrite ?Hdlt, Hllt.
Qed.

Lemma valid_metadata_no_warnings_witness :
  _validate_sop_metadata
    (VMap [("name", VStr "test-sop"); ("description", VStr "A test SOP")])
    "Instructions here."
  = Return [].
Proof.
  refine (valid_metadata_no_warnings
            [("name", VStr "test-sop"); ("description", VStr "A test SOP")]
            "test-sop" "A test SOP" "Instructions here."
            eq_refl eq_refl _ eq_refl _ eq_refl _ _); [done | cbn; lia ..].
Defined.

Lemma format_warning_distinct (name : PyValue) (n : nat) (reserved : string) :
  format_warning name <> length_warning name n
  /\ format_warning name <> reserved_warning name reserved
  /\ format_warning name <> description_warning n
  /\ format_warning name <> body_warning n.
Proof.
  unfold format_warning, length_warning, reserved_warning, description_warning,
    body_warning.
  repeat split; intros H.
  - apply (inj (String.app _)) in H. apply (inj (String.app _)) in H.
    cbv [String.append] in H. discriminate H.
  - apply (inj (String.app _)) in H. apply (inj (String.app _)) in H.
    cbv [String.append] in H. discriminate H.
  - cbv [String.append] in H. discriminate H.
  - cbv [String.append] in H. discriminate H.
Qed.

(** X4. For an identifier that is not empty, has at most 64 characters and
    does not end in a newline, the format warning is given exactly when
    the identifier holds a character outside [[a-z0-9-]] (the description
    being absent or a string). *)
Theorem format_warning_iff (items : list (string * PyValue))
    (name instructions : string) :
  Py.lookup_key "name" items = Some (VStr name) ->
  (Py.lookup_key "description" items = None
   \/ exists d, Py.lookup_key "description" items = Some (VStr d)) ->
  name <> EmptyString ->
  String.length name <= 64 ->
  (forall t, name <> t +:+ Str.nl) ->
  exists warnings,
    _validate_sop_metadata (VMap items) instructions = Return warnings
    /\ (format_warning (VStr name) ∈ warnings
        <-> only_name_chars name = false).
Proof.
  intros Hname Hdesc Hnonempty Hlen Hnl.
  destruct (only_name_chars name) eqn:Hchars.
  - pose proof (only_name_chars_match name Hnonempty Hchars) as Hmatch.
    assert (truthy (VStr name) = true) as Htruthy by (by destruct name).
    assert ((64 <? String.length name) = false) as Hlt
      by (apply Nat.ltb_ge; lia).
    pose proof (fun n r => format_warning_distinct (VStr name) n r) as Hne.
    unfold _validate_sop_metadata. cbn [Py.get bind]. rewrite Hname.
    cbn [default from_option id]. rewrite Htruthy. cbn [Py.len bind].
    rewrite Hlt. cbn [pattern_match bind]. rewrite Hmatch.
    cbn [negb RESERVED_WORDS for_list Py.contains bind app].
    destruct Hdesc as [-> | [d ->]];
      cbn [default from_option id truthy Str.nonempty];
      repeat first
        [ progress cbn [bind Py.len]
        | match goal with
          | |- context [if ?b then _ else _] => destruct b
          end ];
      eexists; (split; [reflexivity|]);
      (split; [|done]);
      rewrite list_elem_of_In; cbn [app In]; intros Hin;
      repeat destruct Hin as [Hin|Hin]; try done;
      symmetry in Hin;
      first [ by apply (Hne 0 "") in Hin
            | by eapply (proj1 (Hne _ "")) in Hin
            | by eapply (proj1 (proj2 (Hne 0 _))) in Hin
            | by eapply (proj1 (proj2 (proj2 (Hne _ "")))) in Hin
            | by eapply (proj2 (proj2 (proj2 (Hne _ "")))) in Hin ].
  - destruct (format_warning_given items name instructions Hname Hdesc Hlen
                Hchars Hnl) as (warnings & Hret & Hin).
    exists warnings. done.
Qed.

Lemma format_warning_iff_witness :
  exists warnings,
    _validate_sop_metadata (VMap [("name", VStr "My Skill")]) "Body."
    = Return warnings
    /\ (format_warning (VStr "My Skill") ∈ warnings
        <-> only_name_chars "My Skill" = false).
Proof.
  apply (format_warning_iff [("name", VStr "My Skill")] "My Skill" "Body.").
  - reflexivity.
  - left. reflexivity.
  - done.
  - cbn. lia.
  - apply not_newline_ended. reflexivity.
Defined.

(** X6. An identifier of more than 64 characters gets the length warning
    and not the format warning, whatever its characters: the pattern is
    only tried on an identifier that is short enough. *)
Theorem long_name_length_warning_only (items : list (string * PyValue))
    (name instructions : string) :
  Py.lookup_key "name" items = Some (VStr name) ->
  (Py.lookup_key "description" items = None
   \/ exists d, Py.lookup_key "description" items = Some (VStr d)) ->
  64 < String.length name ->
  exists warnings,
    _validate_sop_metadata (VMap items) instructions = Return warnings
    /\ length_warning (VStr name) (String.length name) ∈ warnings
    /\ format_warning (VStr name) ∉ warnings.
Proof.
  intros Hname Hdesc Hlen.
  assert (truthy (VStr name) = true) as Htruthy.
  { destruct name; [cbn in Hlen; lia | done]. }
  assert ((64 <? String.length name) = true) as Hlt by (by apply Nat.ltb_lt).
  pose proof (fun n r => format_warning_distinct (VStr name) n r) as Hne.
  unfold _validate_sop_metadata. cbn [Py.get bind]. rewrite Hname.
  cbn [default from_option id]. rewrite Htruthy. cbn [Py.len bind].
  rewrite Hlt. cbn [bind RESERVED_WORDS for_list Py.contains app].
  destruct Hdesc as [-> | [d ->]];
    cbn [default from_option id truthy Str.nonempty];
    repeat first
      [ progress cbn [bind Py.len]
      | match goal with
        | |- context [if ?b then _ else _] => destruct b
        end ];
    eexists; (split; [reflexivity|]);
    (split;
       [ apply list_elem_of_In; cbn [app In]; auto
       | rewrite list_elem_of_In; cbn [app In]; intros Hin;
         repeat destruct Hin as [Hin|Hin]; try done;
         symmetry in Hin;
         first [ by apply (Hne 0 "") in Hin
               | by eapply (proj1 (Hne _ "")) in Hin
               | by eapply (proj1 (proj2 (Hne 0 _))) in Hin
               | by eapply (proj1 (proj2 (proj2 (Hne _ "")))) in Hin
               | by eapply (proj2 (proj2 (proj2 (Hne _ "")))) in Hin ] ]).
Qed.

Lemma long_name_length_warning_only_witness :
  exists warnings,
    _validate_sop_metadata (VMap [("name", VStr long_name)]) "Body."
    = Return warnings
    /\ length_warning (VStr long_name) (String.length long_name) ∈ warnings
    /\ format_warning (VStr long_name) ∉ warnings.
Proof.
  apply (long_name_length_warning_only [("name", VStr long_name)] long_name
           "Body.").
  - reflexivity.
  - left. reflexivity.
  - cbn. lia.
Defined.

(** ** The path safety guard, continued *)

Lemma strip_prefix_spec (pre l rest : list string) :
  PurePath.strip_prefix pre l = Some rest <-> l = pre ++ rest.
Proof.
  revert l. induction pre as [|x pre IH]; intros l; cbn [PurePath.strip_prefix].
  - split; [by intros [= ->] | by intros ->].
  - destruct l as [|y l]; [done|]. case_bool_decide as Hxy.
    + subst y. rewrite IH. cbn. split; [by intros -> | by intros [= ->]].
    + split; [done|]. intros [= -> _]. done.
Qed.

(** X7. When both paths resolve, [_is_safe_path] answers [True] exactly
    when the resolved target is the resolved base or lies below it, and
    [False] exactly when it does not; it raises in neither case. *)
Theorem _is_safe_path_below (w : World) (base_path target_path base target : Path) :
  resolve w base_path = Return base ->
  resolve w target_path = Return target ->
  (_is_safe_path w base_path target_path = Return true <-> below base target)
  /\ (_is_safe_path w base_path target_path = Return false
      <-> ~ below base target).
Proof.
  intros Hbase Htarget.
  set (inside := bool_decide (absolute target = absolute base)
                 && matched (PurePath.strip_prefix (parts base) (parts target))).
  assert (_is_safe_path w base_path target_path = Return inside) as ->.
  { unfold _is_safe_path, PurePath.relative_to, inside.
    rewrite Htarget, Hbase. cbn [bind]. case_bool_decide; [|done].
    by destruct (PurePath.strip_prefix (parts base) (parts target)). }
  assert (inside = true <-> below base target) as Hin.
  { unfold inside, below. rewrite andb_true_iff, bool_decide_eq_true.
    apply and_iff_compat_l.
    destruct (PurePath.strip_prefix (parts base) (parts target)) as [rest|] eqn:Hp.
    - apply strip_prefix_spec in Hp. split; eauto.
    - split; [done|]. intros [more Hm]. apply strip_prefix_spec in Hm.
      congruence. }
  split; (split; [intros [= H] | intros H; f_equal]).
  - by apply Hin.
  - by apply Hin.
  - rewrite <- Hin, H. done.
  - destruct inside; [|done]. destruct H. by apply Hin.
Qed.

Lemma _is_safe_path_below_witness :
  (_is_safe_path FilledCatalog.w FilledCatalog.alpha
     (FilledCatalog.alpha // "FORMS.md") = Return true
   <-> below FilledCatalog.alpha (FilledCatalog.alpha // "FORMS.md"))
  /\ (_is_safe_path FilledCatalog.w FilledCatalog.alpha
        (FilledCatalog.alpha // "FORMS.md") = Return false
      <-> ~ below FilledCatalog.alpha (FilledCatalog.alpha // "FORMS.md")).
Proof.
  exact (_is_safe_path_below FilledCatalog.w FilledCatalog.alpha
           (FilledCatalog.alpha // "FORMS.md") _ _ eq_refl eq_refl).
Defined.

(** ** Discovery, continued *)

(** A loop keeps what every iteration that returns keeps. *)
Lemma for_list_invariant {A S : Type} (P : S -> Prop)
    (body : S -> A -> Result S) (items : list A) (s s' : S) :
  (forall s0 x s1, x ∈ items -> P s0 -> body s0 x = Return s1 -> P s1) ->
  P s ->
  for_list body items s = Return s' ->
  P s'.
Proof.
  revert s. induction items as [|x items IH]; intros s Hstep Hs.
  - by intros [= <-].
  - cbn [for_list]. destruct (body s x) as [s1|e] eqn:Hx; [|done]. cbn [bind].
    apply IH.
    + intros s0 y s2 Hy. apply Hstep. by right.
    + eapply Hstep; [|done..]. by left.
Qed.

Lemma for_each_invariant {A S : Type} (P : S -> Prop)
    (body : S -> A -> Result S) (it : Iteration A) (s s' : S) :
  (forall s0 x s1, x ∈ yielded it -> P s0 -> body s0 x = Return s1 -> P s1) ->
  P s ->
  for_each body it s = Return s' ->
  P s'.
Proof.
  intros Hstep Hs. unfold for_each.
  destruct (for_list body (yielded it) s) as [s1|e] eqn:Hl; [|done]. cbn [bind].
  destruct (finish it); [done|]. intros [= <-].
  by eapply for_list_invariant.
Qed.

(** A loop whose iterations only append can start from any list. *)
Lemma for_list_appends {A B : Type} (body : list B -> A -> Result (list B))
    (items : list A) (acc : list B) :
  (forall acc x, body acc x = (l <- body [] x ;; Return (acc ++ l))) ->
  for_list body items acc = (l <- for_list body items [] ;; Return (acc ++ l)).
Proof.
  intros Hbody. revert acc. induction items as [|x items IH]; intros acc.
  - cbn. by rewrite app_nil_r.
  - cbn [for_list]. rewrite (Hbody acc x).
    destruct (body [] x) as [l1|e]; cbn [bind]; [|done].
    rewrite (IH (acc ++ l1)), (IH l1).
    destruct (for_list body items []) as [l2|e]; cbn [bind]; [|done].
    by rewrite app_assoc.
Qed.

Lemma discover_one_appends (w : World) (validate : bool) (acc : list SOP.t)
    (sop_file : Path) :
  discover_one w validate acc sop_file
  = (l <- discover_one w validate [] sop_file ;; Return (acc ++ l)).
Proof.
  unfold discover_one.
  destruct (load_sop_file w validate sop_file) as [[sop|]|e]; cbn [bind].
  - done.
  - by rewrite app_nil_r.
  - destruct (isinstance e SOPValidationError); [done|].
    destruct (isinstance e OSError); cbn [bind]; [|done].
    by rewrite app_nil_r.
Qed.

Lemma discover_dir_appends (w : World) (validate : bool) (acc : list SOP.t)
    (sop_dir : Path) :
  discover_dir w validate acc sop_dir
  = (l <- discover_dir w validate [] sop_dir ;; Return (acc ++ l)).
Proof.
  unfold discover_dir.
  destruct (expanduser w sop_dir) as [home|e]; cbn [bind]; [|done].
  destruct (resolve w home) as [dir_path|e]; cbn [bind]; [|done].
  destruct (exists_ w dir_path) as [[]|e]; cbn [bind negb];
    [|by rewrite app_nil_r|done].
  destruct (is_dir w dir_path) as [[]|e]; cbn [bind negb];
    [|by rewrite app_nil_r|done].
  unfold for_each.
  rewrite (for_list_appends (discover_one w validate) _ acc)
    by (intros; apply discover_one_appends).
  destruct (for_list (discover_one w validate)
              (yielded (glob w dir_path GlobSopMd)) []); cbn [bind]; [|done].
  by destruct (finish (glob w dir_path GlobSopMd)).
Qed.

(** X8. Discovery over a list of roots is discovery of its parts, one
    after the other: the procedures of the first roots, then those of the
    later ones, and the first exception of either. *)
Theorem discover_sops_app (w : World) (validate : bool)
    (first_dirs later_dirs : list Path) :
  discover_sops w (first_dirs ++ later_dirs) validate
  = (found <- discover_sops w first_dirs validate ;;
     more <- discover_sops w later_dirs validate ;;
     Return (found ++ more)).
Proof.
  unfold discover_sops. rewrite for_list_app.
  destruct (for_list (discover_dir w validate) first_dirs []) as [found|e];
    cbn [bind]; [|done].
  apply for_list_appends. intros. apply discover_dir_appends.
Qed.

Lemma discover_dir_skipped (w : World) (validate : bool) (sops : list SOP.t)
    (sop_dir home dir_path : Path) :
  expanduser w sop_dir = Return home ->
  resolve w home = Return dir_path ->
  (exists_ w dir_path = Return false
   \/ exists_ w dir_path = Return true /\ is_dir w dir_path = Return false) ->
  discover_dir w validate sops sop_dir = Return sops.
Proof.
  intros Hhome Hres Hskip. unfold discover_dir.
  rewrite Hhome. cbn [bind]. rewrite Hres. cbn [bind].
  destruct Hskip as [-> | [-> ->]]; done.
Qed.

(** X9. A root that does not exist, or that is not a directory, adds
    nothing and raises nothing: discovery gives what it gives without
    it. *)
Theorem discover_sops_skips_missing_root (w : World) (validate : bool)
    (before after : list Path) (sop_dir home dir_path : Path) :
  expanduser w sop_dir = Return home ->
  resolve w home = Return dir_path ->
  (exists_ w dir_path = Return false
   \/ exists_ w dir_path = Return true /\ is_dir w dir_path = Return false) ->
  discover_sops w (before ++ sop_dir :: after) validate
  = discover_sops w (before ++ after) validate.
Proof.
  intros Hhome Hres Hskip. unfold discover_sops. rewrite !for_list_app.
  destruct (for_list (discover_dir w validate) before []) as [found|e];
    cbn [bind for_list]; [|done].
  by rewrite (discover_dir_skipped w validate found sop_dir home dir_path).
Qed.

Lemma discover_sops_skips_missing_root_witness :
  discover_sops MissingName.w
    ([] ++ (MissingName.tmp_path // "does-not-exist") :: [MissingName.tmp_path])
    false
  = discover_sops MissingName.w ([] ++ [MissingName.tmp_path]) false.
Proof.
  exact (discover_sops_skips_missing_root MissingName.w false []
           [MissingName.tmp_path] (MissingName.tmp_path // "does-not-exist")
           _ _ eq_refl eq_refl (or_introl eq_refl)).
Defined.

Lemma discover_one_no_procedure (w : World) (validate : bool)
    (sops sops' : list SOP.t) (sop_file : Path) :
  discover_one w validate sops sop_file = Return sops' -> sops' = sops.
Proof.
  unfold discover_one.
  destruct (load_sop_file w validate sop_file) as [[sop|]|e] eqn:Hload.
  - by apply load_sop_file_no_procedure in Hload.
  - by intros [= <-].
  - destruct (isinstance e SOPValidationError); [done|].
    destruct (isinstance e OSError); [|done]. by intros [= <-].
Qed.

Lemma discover_sops_no_procedure (w : World) (validate : bool)
    (directories : list Path) (sops : list SOP.t) :
  discover_sops w directories validate = Return sops -> sops = [].
Proof.
  unfold discover_sops.
  apply (for_list_invariant (fun acc => acc = [])); [|done].
  intros acc sop_dir acc' _ ->. unfold discover_dir.
  destruct (expanduser w sop_dir) as [home|e]; cbn [bind]; [|done].
  destruct (resolve w home) as [dir_path|e]; cbn [bind]; [|done].
  destruct (exists_ w dir_path) as [[]|e]; cbn [bind negb];
    [|by intros [= <-]|done].
  destruct (is_dir w dir_path) as [[]|e]; cbn [bind negb];
    [|by intros [= <-]|done].
  apply (for_each_invariant (fun acc => acc = [])); [|done].
  intros acc0 sop_file acc1 _ ->. apply discover_one_no_procedure.
Qed.

(** X10. Discovery never returns a procedure: whenever [discover_sops]
    returns, it returns the empty list. A manifest for which every step
    of the loop body succeeds (it reads, parses and validates, its
    resources are found, the search for a companion module and the
    resolution of its directory return) makes the call of the constructor
    raise [TypeError], which neither handler catches and which ends
    discovery. *)
Theorem discover_sops_returns_nothing :
  (forall (w : World) (validate : bool) (directories : list Path)
          (sops : list SOP.t),
     discover_sops w directories validate = Return sops -> sops = [])
  /\ (forall (w : World) (validate : bool) (directories : list Path)
             (sop_file : Path) (sops : list SOP.t)
             (name : PyValue) (metadata : SOPMetadata.t) (instructions : string)
             (resources : list SOPResource.t) (has_toolset : bool)
             (path : Path),
        encountered w validate directories sop_file sops ->
        read_manifest w validate sop_file
        = Return (Some (name, metadata, instructions)) ->
        _discover_resources w (PurePath.parent sop_file) = Return resources ->
        _check_toolset w (PurePath.parent sop_file) name = Return has_toolset ->
        resolve w (PurePath.parent sop_file) = Return path ->
        discover_sops w directories validate
        = Raise (SOP.unexpected_keyword "has_toolset")).
Proof.
  split.
  - apply discover_sops_no_procedure.
  - intros w validate directories sop_file sops name metadata instructions
      resources has_toolset path Henc Hmanifest Hres Htool Hpath.
    apply (encountered_raise w validate directories sop_file sops); [done|].
    unfold discover_one, load_sop_file. rewrite Hmanifest. cbn [bind].
    rewrite Hres. cbn [bind]. rewrite Htool. cbn [bind]. rewrite Hpath.
    cbn [bind]. by rewrite SOP_init_has_toolset.
Qed.

Lemma MissingName_encountered :
  encountered MissingName.w false [MissingName.tmp_path] MissingName.sop_md [].
Proof.
  exists [], [], MissingName.tmp_path, MissingName.tmp_path,
    MissingName.tmp_path, [], [], [], None.
  repeat split; vm_compute; reflexivity.
Qed.

Lemma discover_sops_returns_nothing_witness :
  (discover_sops MissingName.w [MissingName.tmp_path] true = Return []
   /\ ([] : list SOP.t) = [])
  /\ discover_sops MissingName.w [MissingName.tmp_path] false
     = Raise (SOP.unexpected_keyword "has_toolset").
Proof.
  split.
  - split; [vm_compute; reflexivity|].
    apply (proj1 discover_sops_returns_nothing MissingName.w true
             [MissingName.tmp_path] []).
    vm_compute. reflexivity.
  - exact (proj2 discover_sops_returns_nothing MissingName.w false
             [MissingName.tmp_path] MissingName.sop_md []
             (VStr "test-sop")
             (SOPMetadata.mk (VStr "test-sop") (VStr "Missing name field") [])
             "Content." [] false MissingName.sop_dir
             MissingName_encountered eq_refl eq_refl eq_refl eq_refl).
Defined.


Lemma relative_to_below (p other rel : Path) :
  PurePath.relative_to p other = Return rel ->
  absolute p = absolute other
  /\ parts p = parts other ++ parts rel /\ rel = mkPath false (parts rel).
Proof.
  unfold PurePath.relative_to. case_bool_decide as Ha; [|done].
  destruct (PurePath.strip_prefix (parts other) (parts p)) as [rest|] eqn:Hp;
    [|done].
  intros [= <-]. apply strip_prefix_spec in Hp. done.
Qed.

(** X12. Every resource that [_discover_resources] returns for a folder
    comes from the folder: it is a Markdown file the folder lists, other
    than the manifest in any letter case, under its file name, or a
    regular file found under [resources/] and lying below the folder,
    under its path relative to the folder; its path is the file's
    resolved path, and no content is loaded. *)
Theorem _discover_resources_sound (w : World) (sop_folder : Path)
    (resources : list SOPResource.t) :
  _discover_resources w sop_folder = Return resources ->
  Forall (resource_of w sop_folder) resources.
Proof.
  unfold _discover_resources.
  destruct (for_each _ (glob w sop_folder GlobMd) []) as [mds|e] eqn:Hmd;
    cbn [bind]; [|done].
  assert (Forall (resource_of w sop_folder) mds) as Hmds.
  { revert Hmd. apply (for_each_invariant (Forall (resource_of w sop_folder)));
      [|done].
    intros acc md_file acc' Hin Hacc.
    destruct (String.eqb (Str.upper (PurePath.name md_file)) "SOP.MD") eqn:Hn;
      cbn [negb]; [by intros [= <-]|].
    destruct (resolve w md_file) as [p|e'] eqn:Hp; cbn [bind]; [|done].
    intros [= <-]. apply Forall_app. split; [done|]. apply Forall_singleton.
    split; [done|]. left. exists md_file. repeat split; try done.
    by apply String.eqb_neq. }
  destruct (exists_ w (sop_folder // "resources")) as [e1|e]; cbn [bind]; [|done].
  destruct (if e1 then is_dir w (sop_folder // "resources") else Return false)
    as [[]|e]; cbn [bind]; [|by intros [= <-]|done].
  apply (for_each_invariant (Forall (resource_of w sop_folder))); [|done].
  intros acc resource_file acc' Hin Hacc.
  destruct (is_file w resource_file) as [[]|e] eqn:Hfile; cbn [bind];
    [|by intros [= <-]|done].
  destruct (PurePath.relative_to resource_file sop_folder) as [rel|e] eqn:Hrel;
    cbn [bind]; [|done].
  destruct (resolve w resource_file) as [p|e] eqn:Hp; cbn [bind]; [|done].
  intros [= <-]. apply Forall_app. split; [done|]. apply Forall_singleton.
  apply relative_to_below in Hrel as (Ha & Hparts & Hrel).
  split; [done|]. right. exists resource_file, (parts rel).
  repeat split; try done. cbn [SOPResource.name]. by rewrite Hrel at 1.
Qed.

Lemma _discover_resources_sound_witness :
  Forall (resource_of FilledCatalog.w FilledCatalog.alpha)
    [SOPResource.mk "FORMS.md" (FilledCatalog.alpha // "FORMS.md") None].
Proof.
  apply (_discover_resources_sound FilledCatalog.w FilledCatalog.alpha).
  vm_compute. reflexivity.
Defined.

(** ** The catalog and the tools, continued *)

(** X13. A refresh that returns leaves the catalog empty, whatever it
    held before: [get_sop] then raises [SOPNotFoundError] for every
    identifier. The directories and the validation flag are kept. *)
Theorem refresh_empties_catalog (w : World) (self self' : SOPsToolset) :
  refresh w self = Return self' ->
  _sops self' = ∅
  /\ _directories self' = _directories self
  /\ _validate self' = _validate self
  /\ forall name, get_sop self' name = Raise (sop_not_found name).
Proof.
  unfold refresh, _discover_sops.
  destruct (discover_sops w (_directories self) (_validate self)) as [sops|e]
    eqn:Hdisc; cbn [bind]; [|done].
  apply discover_sops_no_procedure in Hdisc as ->.
  intros [= <-]. cbn [_sops _directories _validate]. repeat split.
Qed.

Lemma refresh_empties_catalog_witness :
  _sops FilledCatalog.empty = ∅
  /\ _directories FilledCatalog.empty = _directories FilledCatalog.toolset
  /\ _validate FilledCatalog.empty = _validate FilledCatalog.toolset
  /\ forall name, get_sop FilledCatalog.empty name = Raise (sop_not_found name).
Proof.
  apply (refresh_empties_catalog FilledCatalog.w FilledCatalog.toolset).
  reflexivity.
Defined.

(** X14. [read_sop_resource] reads a file only behind the guard: when it
    reads a path, the path is that of a resource of the named procedure
    with the name asked for, [_is_safe_path] has been called on it with
    the procedure's directory and has answered [True], and nothing else
    has been touched. *)
Theorem read_sop_resource_guarded (w : World) (self : SOPsToolset)
    (sop_name resource_name : string) (p : Path) :
  TextRead p ∈ fst (read_sop_resource w self sop_name resource_name) ->
  exists sop resource,
    _sops self !! sop_name = Some sop
    /\ resource ∈ SOP.resources sop
    /\ SOPResource.name resource = resource_name
    /\ SOPResource.path resource = p
    /\ _is_safe_path w (SOP.path sop) p = Return true
    /\ fst (read_sop_resource w self sop_name resource_name)
       = [SafePathChecked (SOP.path sop) p; TextRead p].
Proof.
  unfold read_sop_resource, perform.
  destruct (_sops self !! sop_name) as [sop|]; [|by intros ?%elem_of_nil].
  destruct (List.find _ (SOP.resources sop)) as [resource|] eqn:Hfind;
    [|by intros ?%elem_of_nil].
  apply find_some in Hfind as [Hin Hname%String.eqb_eq].
  destruct (_is_safe_path w (SOP.path sop) (SOPResource.path resource))
    as [[]|e] eqn:Hsafe; cbn [tbind negb tret fst app].
  - intros Hp. apply elem_of_cons in Hp as [[=] | Hp].
    apply list_elem_of_singleton in Hp as [= ->].
    exists sop, resource. repeat split; try done. by apply list_elem_of_In.
  - intros Hp. apply elem_of_cons in Hp as [[=] | Hp]. by apply elem_of_nil in Hp.
  - intros Hp. apply elem_of_cons in Hp as [[=] | Hp]. by apply elem_of_nil in Hp.
Qed.

Lemma read_sop_resource_guarded_witness :
  exists sop resource,
    _sops FilledCatalog.toolset !! "alpha" = Some sop
    /\ resource ∈ SOP.resources sop
    /\ SOPResource.name resource = "FORMS.md"
    /\ SOPResource.path resource = FilledCatalog.alpha // "FORMS.md"
    /\ _is_safe_path FilledCatalog.w (SOP.path sop)
         (FilledCatalog.alpha // "FORMS.md") = Return true
    /\ fst (read_sop_resource FilledCatalog.w FilledCatalog.toolset "alpha"
              "FORMS.md")
       = [SafePathChecked (SOP.path sop) (FilledCatalog.alpha // "FORMS.md");
          TextRead (FilledCatalog.alpha // "FORMS.md")].
Proof.
  apply (read_sop_resource_guarded FilledCatalog.w FilledCatalog.toolset
           "alpha" "FORMS.md" (FilledCatalog.alpha // "FORMS.md")).
  vm_compute. apply list_elem_of_In. right. left. reflexivity.
Defined.

(** X15. What [read_sop_resource] raises: nothing for an unknown
    identifier, an unknown resource or a path that escapes; only, for a
    resource it has found, what the guard raises, or, the guard having
    answered [True], what reading the file raises: [SOPResourceLoadError]
    for an [OSError], and any other exception unchanged. *)
Theorem read_sop_resource_raises (w : World) (self : SOPsToolset)
    (sop_name resource_name : string) (e : Exc) :
  snd (read_sop_resource w self sop_name resource_name) = Raise e ->
  exists sop resource,
    _sops self !! sop_name = Some sop
    /\ resource ∈ SOP.resources sop
    /\ SOPResource.name resource = resource_name
    /\ (_is_safe_path w (SOP.path sop) (SOPResource.path resource) = Raise e
        \/ _is_safe_path w (SOP.path sop) (SOPResource.path resource)
           = Return true
           /\ exists cause,
                read_text w (SOPResource.path resource) = Raise cause
                /\ e = if isinstance cause OSError
                       then resource_load_error resource_name cause
                       else cause).
Proof.
  unfold read_sop_resource, perform.
  destruct (_sops self !! sop_name) as [sop|]; cbn [tret snd]; [|done].
  destruct (List.find _ (SOP.resources sop)) as [resource|] eqn:Hfind;
    cbn [tret snd]; [|done].
  apply find_some in Hfind as [Hin%list_elem_of_In Hname%String.eqb_eq].
  destruct (_is_safe_path w (SOP.path sop) (SOPResource.path resource))
    as [[]|e'] eqn:Hsafe; cbn [tbind negb tret snd]; [|done|].
  - destruct (read_text w (SOPResource.path resource)) as [text|cause] eqn:Hread;
      [done|].
    intros He. exists sop, resource. repeat split; try done. right.
    split; [done|]. exists cause. split; [done|]. unfold resource_load_error.
    destruct (isinstance cause OSError); by injection He.
  - intros [= ->]. exists sop, resource. eauto.
Qed.

(** The reference document has gone since discovery: reading it raises
    [SOPResourceLoadError]. *)
Lemma read_sop_resource_raises_witness :
  exists sop resource,
    _sops FilledCatalog.toolset !! "alpha" = Some sop
    /\ resource ∈ SOP.resources sop
    /\ SOPResource.name resource = "FORMS.md"
    /\ (_is_safe_path MissingName.w (SOP.path sop) (SOPResource.path resource)
        = Raise (resource_load_error "FORMS.md"
                   (Fixture.no_such_file (FilledCatalog.alpha // "FORMS.md")))
        \/ _is_safe_path MissingName.w (SOP.path sop) (SOPResource.path resource)
           = Return true
           /\ exists cause,
                read_text MissingName.w (SOPResource.path resource) = Raise cause
                /\ resource_load_error "FORMS.md"
                     (Fixture.no_such_file (FilledCatalog.alpha // "FORMS.md"))
                   = if isinstance cause OSError
                     then resource_load_error "FORMS.md" cause
                     else cause).
Proof.
  apply (read_sop_resource_raises MissingName.w FilledCatalog.toolset
           "alpha" "FORMS.md").
  vm_compute. reflexivity.
Defined.

(** ** The metadata validator: reserved words and length limits *)

(** X17. An identifier that holds a reserved word gets the warning for
    that word, whatever its length and its other characters (the
    description being absent or a string). *)
Theorem reserved_word_warning (items : list (string * PyValue))
    (name instructions reserved : string) :
  Py.lookup_key "name" items = Some (VStr name) ->
  (Py.lookup_key "description" items = None
   \/ exists d, Py.lookup_key "description" items = Some (VStr d)) ->
  reserved ∈ RESERVED_WORDS ->
  Str.contains reserved name = true ->
  exists warnings,
    _validate_sop_metadata (VMap items) instructions = Return warnings
    /\ reserved_warning (VStr name) reserved ∈ warnings.
Proof.
  intros Hname Hdesc Hres Hcontains.
  assert (truthy (VStr name) = true) as Htruthy.
  { destruct name; [|done]. unfold RESERVED_WORDS in Hres.
    apply elem_of_cons in Hres as [-> | Hres]; [done|].
    apply list_elem_of_singleton in Hres as ->. done. }
  unfold _validate_sop_metadata. cbn [Py.get bind]. rewrite Hname.
  cbn [default from_option id]. rewrite Htruthy. cbn [Py.len bind].
  unfold RESERVED_WORDS in Hres.
  apply elem_of_cons in Hres as [-> | Hres];
    [|apply list_elem_of_singleton in Hres as ->].
  all: destruct (64 <? String.length name);
    cbn [pattern_match bind RESERVED_WORDS for_list Py.contains app];
    rewrite ?Hcontains;
    destruct Hdesc as [-> | [d ->]];
    cbn [default from_option id truthy Str.nonempty];
    repeat first
      [ progress cbn [bind Py.len]
      | match goal with
        | |- context [if ?b then _ else _] => destruct b
        end ];
    eexists; (split; [reflexivity|]);
    apply list_elem_of_In; cbn [app In]; auto 10.
Qed.

Lemma reserved_word_warning_witness :
  exists warnings,
    _validate_sop_metadata (VMap [("name", VStr "claude-helper")]) "Body."
    = Return warnings
    /\ reserved_warning (VStr "claude-helper") "claude" ∈ warnings.
Proof.
  apply (reserved_word_warning [("name", VStr "claude-helper")] "claude-helper"
           "Body." "claude").
  - reflexivity.
  - left. reflexivity.
  - apply list_elem_of_In. right. left. reflexivity.
  - reflexivity.
Defined.

Lemma about_name_warnings (name : PyValue) (n : nat) (reserved : string) :
  about_name (length_warning name n) = true
  /\ about_name (format_warning name) = true
  /\ about_name (reserved_warning name reserved) = true
  /\ about_name (description_warning n) = false
  /\ about_name (body_warning n) = false.
Proof.
  unfold about_name, length_warning, format_warning, reserved_warning,
    description_warning, body_warning.
  repeat split; reflexivity.
Qed.

Lemma description_not_body (n m : nat) : description_warning n <> body_warning m.
Proof.
  unfold description_warning, body_warning. intros H.
  cbv [String.append] in H. discriminate H.
Qed.

(** The warnings about the identifier, as the first part of the validator
    collects them. *)
Lemma name_warnings_about_name (name : PyValue) (warnings : list string) :
  (if truthy name then
     n <- Py.len name ;;
     warnings_list <-
       (if 64 <? n then Return ([] ++ [length_warning name n])
        else
          m <- pattern_match name ;;
          Return (if negb m then [] ++ [format_warning name] else [])) ;;
     for_list
       (fun warnings_list reserved =>
          c <- Py.contains reserved name ;;
          Return (if c then warnings_list ++ [reserved_warning name reserved]
                  else warnings_list))
       RESERVED_WORDS warnings_list
   else Return []) = Return warnings ->
  Forall (fun warning => about_name warning = true) warnings.
Proof.
  destruct (truthy name); [|by intros [= <-]].
  destruct (Py.len name) as [n|e]; cbn [bind]; [|done].
  pose proof (fun r => about_name_warnings name n r) as Habout.
  assert (forall start,
            Forall (fun warning => about_name warning = true) start ->
            for_list
              (fun warnings_list reserved =>
                 c <- Py.contains reserved name ;;
                 Return (if c
                         then warnings_list ++ [reserved_warning name reserved]
                         else warnings_list))
              RESERVED_WORDS start = Return warnings ->
            Forall (fun warning => about_name warning = true) warnings) as Hloop.
  { intros start Hstart.
    apply (for_list_invariant
             (Forall (fun warning => about_name warning = true))); [|done].
    intros acc reserved acc' _ Hacc.
    destruct (Py.contains reserved name) as [[]|e]; cbn [bind]; [| |done].
    - intros [= <-]. apply Forall_app. split; [done|].
      apply Forall_singleton, Habout.
    - by intros [= <-]. }
  destruct (64 <? n); cbn [bind].
  - apply Hloop. apply Forall_singleton, (Habout "").
  - destruct (pattern_match name) as [[]|e]; cbn [bind negb]; [| |done].
    + by apply Hloop.
    + apply Hloop. apply Forall_singleton, (Habout "").
Qed.

(** X18. The two length limits are inclusive. When the validator returns,
    the description warning is among its warnings exactly when the
    description has more than 1024 characters, and the body warning
    exactly when the instructions, split at newlines, have more than 500
    lines. *)
Theorem length_limits (items : list (string * PyValue))
    (description instructions : string) (warnings : list string) :
  Py.lookup_key "description" items = Some (VStr description) ->
  _validate_sop_metadata (VMap items) instructions = Return warnings ->
  (description_warning (String.length description) ∈ warnings
   <-> 1024 < String.length description)
  /\ (body_warning (length (Str.lines instructions)) ∈ warnings
      <-> 500 < length (Str.lines instructions)).
Proof.
  intros Hdesc. unfold _validate_sop_metadata. cbn [Py.get bind].
  rewrite Hdesc. cbn [default from_option id].
  match goal with
  | |- bind ?m _ = _ -> _ => destruct m as [names|e] eqn:Hnames
  end; cbn [bind]; [|done].
  apply name_warnings_about_name in Hnames.
  assert (forall warning, about_name warning = false -> warning ∉ names)
    as Hnot.
  { intros warning Hw Hin. rewrite Forall_forall in Hnames.
    apply Hnames in Hin. congruence. }
  pose proof (Hnot _ (proj1 (proj2 (proj2 (proj2
                (about_name_warnings VNone (String.length description) ""))))))
    as Hd.
  pose proof (Hnot _ (proj2 (proj2 (proj2 (proj2
                (about_name_warnings VNone (length (Str.lines instructions))
                   ""))))))
    as Hb.
  pose proof (description_not_body (String.length description)
                (length (Str.lines instructions))) as Hdb.
  destruct (truthy (VStr description)) eqn:Htruthy; cbn [bind Py.len].
  - destruct (1024 <? String.length description) eqn:Hlen;
      destruct (500 <? length (Str.lines instructions)) eqn:Hlines;
      intros [= <-];
      rewrite ?Nat.ltb_lt, ?Nat.ltb_ge in *;
      rewrite ?elem_of_app, ?list_elem_of_singleton;
      (split; split; intros; intuition (try lia; try congruence)).
  - assert (String.length description = 0) as Hzero by (by destruct description).
    destruct (500 <? length (Str.lines instructions)) eqn:Hlines;
      intros [= <-];
      rewrite ?Nat.ltb_lt, ?Nat.ltb_ge in *;
      rewrite ?elem_of_app, ?list_elem_of_singleton;
      (split; split; intros; intuition (try lia; try congruence)).
Qed.

Lemma length_limits_witness :
  (description_warning (String.length "A test SOP") ∈ ([] : list string)
   <-> 1024 < String.length "A test SOP")
  /\ (body_warning (length (Str.lines "Instructions here."))
        ∈ ([] : list string)
      <-> 500 < length (Str.lines "Instructions here.")).
Proof.
  apply (length_limits
           [("name", VStr "test-sop"); ("description", VStr "A test SOP")]
           "A test SOP" "Instructions here." []).
  - reflexivity.
  - vm_compute. reflexivity.
Defined.

(** ** The listings *)

(** Sorting the entries by name and then taking the names is sorting the
    names. *)
Lemma list_merge_keys (l1 l2 : list (string * SOP.t)) :
  (list_merge (fun a b => str_le (fst a) (fst b)) l1 l2).*1
  = list_merge str_le l1.*1 l2.*1.
Proof.
  revert l2. induction l1 as [|x1 l1 IH1]; intros l2; [by destruct l2|].
  induction l2 as [|x2 l2 IH2]; [done|].
  cbn [list_merge fmap list_fmap] in *.
  destruct (decide (str_le x1.1 x2.1)); cbn [fmap list_fmap].
  - f_equal. apply IH1.
  - f_equal. apply IH2.
Qed.

Lemma merge_list_to_stack_keys (st : list (option (list (string * SOP.t))))
    (l : list (string * SOP.t)) :
  fmap (M:=list) (fmap (M:=option) (fmap (M:=list) fst))
    (merge_list_to_stack (fun a b => str_le (fst a) (fst b)) st l)
  = merge_list_to_stack str_le
      (fmap (M:=list) (fmap (M:=option) (fmap (M:=list) fst)) st) l.*1.
Proof.
  revert l. induction st as [|[l'|] st IH]; intros l; [done| |done].
  cbn [merge_list_to_stack fmap list_fmap option_fmap option_map].
  f_equal. by rewrite IH, list_merge_keys.
Qed.

Lemma merge_stack_keys (st : list (option (list (string * SOP.t)))) :
  (merge_stack (fun a b => str_le (fst a) (fst b)) st).*1
  = merge_stack str_le
      (fmap (M:=list) (fmap (M:=option) (fmap (M:=list) fst)) st).
Proof.
  induction st as [|[l|] st IH]; [done| |done].
  cbn [merge_stack fmap list_fmap option_fmap option_map].
  by rewrite list_merge_keys, IH.
Qed.

Lemma merge_sort_aux_keys (st : list (option (list (string * SOP.t))))
    (l : list (string * SOP.t)) :
  (merge_sort_aux (fun a b => str_le (fst a) (fst b)) st l).*1
  = merge_sort_aux str_le
      (fmap (M:=list) (fmap (M:=option) (fmap (M:=list) fst)) st) l.*1.
Proof.
  revert st. induction l as [|x l IH]; intros st.
  - apply merge_stack_keys.
  - cbn [merge_sort_aux fmap list_fmap]. rewrite IH.
    by rewrite merge_list_to_stack_keys.
Qed.

Lemma sorted_items_keys (d : gmap string SOP.t) :
  (sorted_items d).*1 = sorted_keys d.
Proof. apply (merge_sort_aux_keys []). Qed.

#[local] Instance str_le_total : Total str_le.
Proof. intros a b. apply String.leb_total. Qed.

Lemma sorted_items_lookup (d : gmap string SOP.t) (name : string)
    (sop : SOP.t) :
  (name, sop) ∈ sorted_items d <-> d !! name = Some sop.
Proof.
  unfold sorted_items. rewrite merge_sort_Permutation.
  apply elem_of_map_to_list.
Qed.

Lemma dict_nonempty_true (d : gmap string SOP.t) :
  dict_nonempty d = true <-> d <> ∅.
Proof.
  unfold dict_nonempty. rewrite negb_true_iff, bool_decide_eq_false. done.
Qed.

(** X19. The listing of a catalog that is not empty: after the heading and
    an empty line, one line per procedure of the catalog, each procedure
    once, in ascending order of the names; that order is the one in which
    [activate_sop] names the procedures for an unknown identifier. *)
Theorem list_sops_sorted_complete (self : SOPsToolset) :
  _sops self <> ∅ ->
  exists items : list (string * SOP.t),
    list_sops self
    = Str.join Str.nl ("# Available SOPs" :: "" :: List.map catalog_line items)
    /\ (forall name sop,
          (name, sop) ∈ items <-> _sops self !! name = Some sop)
    /\ NoDup items.*1
    /\ Sorted str_le items.*1
    /\ items.*1 = sorted_keys (_sops self).
Proof.
  intros Hne. exists (sorted_items (_sops self)). repeat split.
  - unfold list_sops. apply dict_nonempty_true in Hne. rewrite Hne.
    cbn [negb app]. do 3 f_equal. apply map_ext. by intros [name sop].
  - apply sorted_items_lookup.
  - apply sorted_items_lookup.
  - unfold sorted_items. rewrite merge_sort_Permutation.
    apply NoDup_fst_map_to_list.
  - rewrite sorted_items_keys. apply Sorted_merge_sort, _.
  - apply sorted_items_keys.
Qed.

Lemma list_sops_sorted_complete_witness :
  exists items : list (string * SOP.t),
    list_sops FilledCatalog.toolset
    = Str.join Str.nl ("# Available SOPs" :: "" :: List.map catalog_line items)
    /\ (forall name sop,
          (name, sop) ∈ items
          <-> _sops FilledCatalog.toolset !! name = Some sop)
    /\ NoDup items.*1
    /\ Sorted str_le items.*1
    /\ items.*1 = sorted_keys (_sops FilledCatalog.toolset).
Proof.
  apply (list_sops_sorted_complete FilledCatalog.toolset).
  apply dict_nonempty_true. vm_compute. reflexivity.
Defined.

Lemma join_first_char (sep : string) (c : ascii) (p q : string)
    (l : list string) :
  exists t, Str.join sep (String c p :: q :: l) = String c t.
Proof. by eexists. Qed.

(** X20. With no procedure loaded the listing is the text
    [No SOPs available.] and the system prompt is the empty string; with
    any procedure loaded, neither is. *)
Theorem empty_catalog_listings (self : SOPsToolset) :
  (list_sops self = "No SOPs available." <-> _sops self = ∅)
  /\ (get_sops_system_prompt self = "" <-> _sops self = ∅).
Proof.
  unfold list_sops, get_sops_system_prompt.
  destruct (dict_nonempty (_sops self)) eqn:Hne; cbn [negb app].
  - apply dict_nonempty_true in Hne.
    repeat match goal with
    | |- context [Str.join ?sep (String ?c ?p :: ?q :: ?l)] =>
        destruct (join_first_char sep c p q l) as [? ->]
    end.
    split; (split; [discriminate | done]).
  - assert (_sops self = ∅) as Hempty.
    { apply dec_stable. intros H. apply dict_nonempty_true in H. congruence. }
    done.
Qed.
